(** * Job submission, status polling and synthesized progress of the
      tattoo-ideas front end ([src/app/page.tsx]).

    The page component [Home] keeps five pieces of React state and one
    asynchronous click handler, [handleButtonClick].  The handler is embedded
    as a function of a state-and-trace monad with explicit completions
    (normal, [return], thrown exception, suspended on an [await]); the
    responses of the remote service are the handler's input script. *)

From Stdlib Require Import Ascii String List Arith ZArith Lia Bool Sorted.
Import ListNotations.
Local Open Scope string_scope.
Local Open Scope list_scope.

(** ** Data model *)

(** [interface Prediction].  At run time the value comes out of
    [response.json()], so every field may be missing ([undefined] or
    [null]): a missing field is [None]. *)
Record Prediction : Type := mkPrediction {
  output : option (list string);
  status : option string;
  id : option string;
  detail : option string
}.

(** What [await response.json()] can evaluate to, as far as the handler can
    tell the values apart: [null] (a property read throws), a falsy primitive
    ([false], [0], the empty string: property reads give [undefined]), or a
    truthy value, whose four fields the handler reads.  A truthy primitive or
    an array is a [JRecord] with no field set. *)
Inductive JsonValue : Type :=
| JNull
| JFalsy
| JRecord (p : Prediction).

(** Exceptions that can be raised inside the [try] block. *)
Inductive Exn : Type :=
| FetchFailed                (* [fetch] rejected: network failure *)
| ParseFailed                (* [response.json()] rejected *)
| HttpError (code : nat)     (* [new Error(`HTTP error! status: ...`)] *)
| NullDeref (field : string) (* [TypeError]: property read on [null] *).

(** The outcome of one [fetch] followed by [response.json()]. *)
Inductive Body : Type :=
| BodyThrows
| BodyJson (j : JsonValue).

Inductive FetchResult : Type :=
| FetchThrows
| Response (code : nat) (body : Body).

(** One iteration of the polling loop as the environment drives it: how many
    times the interval callback fires while the handler is suspended in
    [sleep(2000)], how many times while it is suspended in [fetch] and
    [response.json()], and what the fetch produces. *)
Record Poll : Type := mkPoll {
  ticksSleep : nat;
  ticksFetch : nat;
  result : FetchResult
}.

(** Observable effects, in program order. *)
Inductive Event : Type :=
| SetError (e : option string)
| SetPredictionOn (b : bool)
| SetPrediction (j : JsonValue)
| SetProgress (n : nat)
| FetchCreate (prompt : string)   (* POST /api/prediction, {message: prompt} *)
| FetchStatus (url : string)      (* GET url *)
| Sleep (ms : nat)
| SetInterval (ms : nat)
| ClearInterval
| ConsoleLog (e : Exn)
| TimerFired (written : option nat)
    (* the interval callback ran: [Some v] when it called [setProgress(v)],
       [None] when it called [clearInterval] *).

(** The React state of [Home] together with the two locals of the running
    handler that its interval callback closes over.  [message] is the prompt
    as the sequence of its code units: the handler only tests it for
    emptiness, takes its [length] and concatenates it.  [error] is [None] for
    both [null] and [undefined]: either way nothing is shown. *)
Record Machine : Type := mkMachine {
  message : string;
  progress : nat;
  predictionOn : bool;
  prediction : JsonValue;
  error : option string;
  progressValue : nat;
  intervalActive : bool
}.

(** [useState] initial values; no interval exists yet. *)
Definition initialMachine : Machine :=
  mkMachine "" 0 false JNull None 0 false.

(** ** Completions and the handler monad *)

Inductive Completion (A : Type) : Type :=
| Normal (a : A)   (* control reaches the next statement *)
| Returned         (* a [return] statement ran *)
| Thrown (e : Exn) (* an exception is propagating *)
| Suspended        (* parked on an [await] the script does not answer *).
Arguments Normal {A} a.
Arguments Returned {A}.
Arguments Thrown {A} e.
Arguments Suspended {A}.

Definition M (A : Type) : Type :=
  Machine -> Machine * list Event * Completion A.

Definition ret {A} (a : A) : M A := fun m => (m, [], Normal a).

Definition bind {A B} (c : M A) (k : A -> M B) : M B :=
  fun m =>
    let '(m1, t1, r) := c m in
    match r with
    | Normal a => let '(m2, t2, r2) := k a m1 in (m2, t1 ++ t2, r2)
    | Returned => (m1, t1, Returned)
    | Thrown e => (m1, t1, Thrown e)
    | Suspended => (m1, t1, Suspended)
    end.

Notation "x <- c ;; k" := (bind c (fun x => k))
  (at level 61, c at next level, right associativity).
Notation "c ;; k" := (bind c (fun _ => k))
  (at level 61, right associativity).

Definition return_ {A} : M A := fun m => (m, [], Returned).
Definition throw {A} (e : Exn) : M A := fun m => (m, [], Thrown e).
Definition suspend {A} : M A := fun m => (m, [], Suspended).
Definition emit (e : Event) : M unit := fun m => (m, [e], Normal tt).

(** [try { body } catch (error) { handler }] *)
Definition tryCatch {A} (body : M A) (handler : Exn -> M A) : M A :=
  fun m =>
    let '(m1, t1, r) := body m in
    match r with
    | Thrown e => let '(m2, t2, r2) := handler e m1 in (m2, t1 ++ t2, r2)
    | _ => (m1, t1, r)
    end.

(** ** State setters *)

Definition setError (e : option string) : M unit :=
  fun m => (mkMachine (message m) (progress m) (predictionOn m) (prediction m)
                      e (progressValue m) (intervalActive m),
            [SetError e], Normal tt).

Definition setPredictionOn (b : bool) : M unit :=
  fun m => (mkMachine (message m) (progress m) b (prediction m)
                      (error m) (progressValue m) (intervalActive m),
            [SetPredictionOn b], Normal tt).

Definition setPrediction (j : JsonValue) : M unit :=
  fun m => (mkMachine (message m) (progress m) (predictionOn m) j
                      (error m) (progressValue m) (intervalActive m),
            [SetPrediction j], Normal tt).

Definition setProgress (n : nat) : M unit :=
  fun m => (mkMachine (message m) n (predictionOn m) (prediction m)
                      (error m) (progressValue m) (intervalActive m),
            [SetProgress n], Normal tt).

(** ** The progress interval *)

Definition progressIntervalMs : nat := 750.
Definition pollDelayMs : nat := 2000.

(** [let progressValue = 1; ... setInterval(callback, 750)]: the counter and
    the interval of this click.  The two locals of [Machine] are those of the
    latest click; an interval that an earlier click left armed keeps its own
    counter and is carried by [leftover] of a [Page], below. *)
Definition startInterval : M unit :=
  fun m => (mkMachine (message m) (progress m) (predictionOn m) (prediction m)
                      (error m) 1 true,
            [SetInterval progressIntervalMs], Normal tt).

(** [clearInterval(progressInterval)] *)
Definition clearInterval : M unit :=
  fun m => (mkMachine (message m) (progress m) (predictionOn m) (prediction m)
                      (error m) (progressValue m) false,
            [ClearInterval], Normal tt).

(** One firing of the interval callback:
    [if (progressValue <= 100) setProgress(progressValue++);
     else clearInterval(progressInterval);]
    A cleared interval never fires. *)
Definition tick : M unit :=
  fun m =>
    if intervalActive m then
      if Nat.leb (progressValue m) 100 then
        (mkMachine (message m) (progressValue m) (predictionOn m)
                   (prediction m) (error m) (S (progressValue m)) true,
         [TimerFired (Some (progressValue m))], Normal tt)
      else
        (mkMachine (message m) (progress m) (predictionOn m) (prediction m)
                   (error m) (progressValue m) false,
         [TimerFired None], Normal tt)
    else (m, [], Normal tt).

Fixpoint ticks (n : nat) : M unit :=
  match n with
  | O => ret tt
  | S k => tick ;; ticks k
  end.

(** ** Property reads on the parsed body *)

(** [prediction.detail] *)
Definition getDetail (j : JsonValue) : M (option string) :=
  match j with
  | JNull => throw (NullDeref "detail")
  | JFalsy => ret None
  | JRecord p => ret (detail p)
  end.

(** [prediction.status] *)
Definition getStatus (j : JsonValue) : M (option string) :=
  match j with
  | JNull => throw (NullDeref "status")
  | JFalsy => ret None
  | JRecord p => ret (status p)
  end.

(** [!!prediction] *)
Definition truthy (j : JsonValue) : bool :=
  match j with
  | JRecord _ => true
  | _ => false
  end.

(** [s === lit] for a possibly undefined [s] *)
Definition isStatus (lit : string) (s : option string) : bool :=
  match s with
  | Some x => String.eqb x lit
  | None => false
  end.

(** The negation of the loop condition:
    [status === "succeeded" || status === "failed"]. *)
Definition terminal (s : option string) : bool :=
  isStatus "succeeded" s || isStatus "failed" s.

(** ["/api/predictionState" + "/" + prediction.id]; the branch is taken only
    for a truthy value, and a missing id concatenates as ["undefined"]. *)
Definition predictionsIdUrl (j : JsonValue) : string :=
  "/api/predictionState" ++ "/" ++
  match j with
  | JRecord p => match id p with Some i => i | None => "undefined" end
  | _ => "undefined"
  end.

(** ** User-visible messages *)

Definition msgTooLong : string :=
  "Your message exceeds the 2000 characters limit. Please shorten your message and try again.".
Definition msgRateLimit : string :=
  "You have reached your request limit of 5 for the hour. Try again after sometime.".
Definition msgNoText : string :=
  "No text entered. Please enter a prompt and try again.".

(** [response.ok] *)
Definition ok (code : nat) : bool := Nat.leb 200 code && Nat.leb code 299.

(** ** The polling loop (lines 143-161)

    [cur] is the handler's local [prediction]; the script supplies one [Poll]
    per iteration and the loop is parked when the script is used up. *)
Fixpoint pollLoop (url : string) (cur : JsonValue) (polls : list Poll)
  : M unit :=
  s <- getStatus cur ;;
  if terminal s then ret tt
  else
    match polls with
    | [] => suspend
    | p :: rest =>
        emit (Sleep pollDelayMs) ;;
        ticks (ticksSleep p) ;;
        emit (FetchStatus url) ;;
        ticks (ticksFetch p) ;;
        match result p with
        | FetchThrows => throw FetchFailed
        | Response code BodyThrows => throw ParseFailed
        | Response code (BodyJson j) =>
            if negb (Nat.eqb code 200) then
              d <- getDetail j ;;
              setError d ;;
              return_
            else
              setPrediction j ;;
              s' <- getStatus j ;;
              (if isStatus "succeeded" s' then
                 clearInterval ;;
                 setProgress 100 ;;
                 setPredictionOn false
               else ret tt) ;;
              pollLoop url j rest
        end
    end.

(** ** The body of the [try] block (lines 103-167) *)
Definition tryBody (prompt : string) (create : FetchResult)
  (polls : list Poll) : M unit :=
  emit (FetchCreate prompt) ;;
  match create with
  | FetchThrows => throw FetchFailed
  | Response code body =>
      (if negb (ok code) then
         if Nat.eqb code 429 then
           setError (Some msgRateLimit) ;;
           setPredictionOn false
         else throw (HttpError code)
       else ret tt) ;;
      match body with
      | BodyThrows => throw ParseFailed
      | BodyJson j =>
          if negb (Nat.eqb code 201) then
            d <- getDetail j ;;
            setError d ;;
            setPredictionOn false ;;
            return_
          else if truthy j then
            setPrediction j ;;
            setProgress 0 ;;
            startInterval ;;
            pollLoop (predictionsIdUrl j) j polls
          else
            setPrediction JNull ;;
            setPredictionOn false
      end
  end.

(** [catch (error) { setPredictionOn(false); console.log(...) }]; every
    exception raised in the block is an [Error], so it is logged. *)
Definition catchBlock (e : Exn) : M unit :=
  setPredictionOn false ;;
  emit (ConsoleLog e).

(** ** [handleButtonClick] (lines 77-179) *)
Definition handleButtonClick (create : FetchResult) (polls : list Poll)
  : M unit :=
  fun m =>
    (if String.eqb (message m) "" then
       setError (Some msgNoText)
     else
       setError None ;;
       if Nat.ltb 2000 (String.length (message m)) then
         setError (Some msgTooLong) ;;
         return_
       else
         setPredictionOn true ;;
         tryCatch
           (tryBody ("in the style of TOK," ++ message m ++ " as a tattoo")
                    create polls)
           catchBlock) m.

(** [handleInputChange] *)
Definition handleInputChange (value : string) (m : Machine) : Machine :=
  mkMachine value (progress m) (predictionOn m) (prediction m) (error m)
            (progressValue m) (intervalActive m).

(** Projections of a run. *)
Definition finalOf {A} (r : Machine * list Event * Completion A) : Machine :=
  fst (fst r).
Definition traceOf {A} (r : Machine * list Event * Completion A)
  : list Event := snd (fst r).
Definition completionOf {A} (r : Machine * list Event * Completion A)
  : Completion A := snd r.

(** The promise returned by the handler is settled when the body ran to its
    end or executed [return]; it is rejected when an exception escaped. *)
Definition resolved {A} (c : Completion A) : bool :=
  match c with
  | Normal _ | Returned => true
  | _ => false
  end.

Definition rejected {A} (c : Completion A) : bool :=
  match c with
  | Thrown _ => true
  | _ => false
  end.

(** ** Reading a trace *)

(** The events issued by the handler itself: everything but the firings of
    the interval callback, which run between the handler's suspension points. *)
Definition isTimerEvent (e : Event) : bool :=
  match e with
  | TimerFired _ => true
  | _ => false
  end.

Definition handlerEvents (t : list Event) : list Event :=
  filter (fun e => negb (isTimerEvent e)) t.

(** The values written to [progress], by the handler or by the callback. *)
Definition progressWrite (e : Event) : list nat :=
  match e with
  | SetProgress n => [n]
  | TimerFired (Some n) => [n]
  | _ => []
  end.

Definition progressWrites (t : list Event) : list nat :=
  flat_map progressWrite t.

(** Status fetches issued. *)
Definition isStatusFetch (e : Event) : bool :=
  match e with
  | FetchStatus _ => true
  | _ => false
  end.

Definition statusFetches (t : list Event) : nat :=
  length (filter isStatusFetch t).

(** Network requests of either kind. *)
Definition isRequest (e : Event) : bool :=
  match e with
  | FetchCreate _ | FetchStatus _ => true
  | _ => false
  end.

Definition requests (t : list Event) : nat :=
  length (filter isRequest t).

(** ** The gallery (lines 325-334)

    [prediction && prediction.output && <four ImageComponents>]: the [src] of
    the k-th image is [output[output.length - k]].  A JavaScript array read at
    a negative or too large index is [undefined], here [None]. *)
Definition jsIndex (l : list string) (i : Z) : option string :=
  if (i <? 0)%Z then None else nth_error l (Z.to_nat i).

Definition gallerySrc (out : list string) (k : Z) : option string :=
  jsIndex out (Z.of_nat (length out) - k)%Z.

Definition galleryRefs (j : JsonValue) : option (list (option string)) :=
  match j with
  | JRecord p =>
      match output p with
      | Some out =>
          Some [gallerySrc out 1; gallerySrc out 2;
                gallerySrc out 3; gallerySrc out 4]
      | None => None
      end
  | _ => None
  end.

Definition defined (o : option string) : bool :=
  match o with
  | Some _ => true
  | None => false
  end.

(** ** Scenarios of the polling script *)

(** [cur.status] can be read and is not terminal: the loop goes on. *)
Definition nonterminal (cur : JsonValue) : bool :=
  match cur with
  | JNull => false
  | JFalsy => true
  | JRecord p => negb (terminal (status p))
  end.

(** A poll answered with HTTP 200 and a body on which the loop goes on. *)
Definition continues (p : Poll) : bool :=
  match result p with
  | Response code (BodyJson j) => Nat.eqb code 200 && nonterminal j
  | _ => false
  end.

(** The handler's local [prediction] after a run of polls that all
    [continues]. *)
Fixpoint lastJob (cur : JsonValue) (pre : list Poll) : JsonValue :=
  match pre with
  | [] => cur
  | p :: rest =>
      match result p with
      | Response _ (BodyJson j) => lastJob j rest
      | _ => lastJob cur rest
      end
  end.

(** A poll whose [fetch] or whose body parsing throws. *)
Definition transportFails (p : Poll) : bool :=
  match result p with
  | FetchThrows => true
  | Response _ BodyThrows => true
  | _ => false
  end.

(** A submission accepted by the service: HTTP 201 with a truthy body whose
    status is not terminal, so that polling begins. *)
Definition accepted (create : FetchResult) : bool :=
  match create with
  | Response code (BodyJson j) => Nat.eqb code 201 && truthy j && nonterminal j
  | _ => false
  end.

(** The ways a transport failure can hit one submission: the creation
    [fetch] throws; the creation body cannot be parsed (reached for a 2xx or a
    429 response); or, after acceptance and a run of continuing polls, a poll
    fails in transport. *)
Inductive TransportFailure : FetchResult -> list Poll -> Prop :=
| tf_create : forall polls, TransportFailure FetchThrows polls
| tf_create_body : forall code polls,
    ok code || Nat.eqb code 429 = true ->
    TransportFailure (Response code BodyThrows) polls
| tf_poll : forall create pre p rest,
    accepted create = true ->
    forallb continues pre = true ->
    transportFails p = true ->
    TransportFailure create (pre ++ p :: rest).

(** A valid prompt: not empty and at most 2000 code units long. *)
Definition validMessage (s : string) : bool :=
  negb (String.eqb s "") && Nat.leb (String.length s) 2000.

(** ** What the specification asks of the polling loop

    Following the specification's words: the loop goes on while the status is
    neither [succeeded] nor [failed]; each iteration waits 2000 ms, fetches,
    and publishes the fetched Job; on [succeeded] it stops the synthesizer,
    forces progress to 100 and clears the in-flight flag. *)
Fixpoint consumedJobs (cur : option string) (jobs : list Prediction)
  : list Prediction :=
  match jobs with
  | [] => []
  | j :: rest =>
      if terminal cur then [] else j :: consumedJobs (status j) rest
  end.

Definition iterationEvents (url : string) (j : Prediction) : list Event :=
  [Sleep 2000; FetchStatus url; SetPrediction (JRecord j)] ++
  (if isStatus "succeeded" (status j)
   then [ClearInterval; SetProgress 100; SetPredictionOn false]
   else []).

(** A poll answered with HTTP 200 and the Job [j], during which the interval
    callback fired [a] and then [b] times. *)
Definition jobPoll (x : nat * nat * Prediction) : Poll :=
  let '(a, b, j) := x in mkPoll a b (Response 200 (BodyJson (JRecord j))).

Definition jobOf (x : nat * nat * Prediction) : Prediction := snd x.

(** ** Auxiliary definitions for the statements *)

Definition prepend {A} (t : list Event)
  (r : Machine * list Event * Completion A)
  : Machine * list Event * Completion A :=
  (finalOf r, t ++ traceOf r, completionOf r).

(** The state when the response of poll [p] arrives, and what was observed
    while the handler was suspended. *)
Definition afterWait (p : Poll) (m : Machine) : Machine :=
  finalOf (ticks (ticksFetch p) (finalOf (ticks (ticksSleep p) m))).

Definition waitEvents (url : string) (p : Poll) (m : Machine) : list Event :=
  Sleep pollDelayMs :: traceOf (ticks (ticksSleep p) m) ++
  FetchStatus url ::
  traceOf (ticks (ticksFetch p) (finalOf (ticks (ticksSleep p) m))).

(** What the loop does with a parsed body once the wait is over. *)
Definition onBody (url : string) (code : nat) (j : JsonValue)
  (rest : list Poll) : M unit :=
  if negb (Nat.eqb code 200) then
    d <- getDetail j ;;
    setError d ;;
    return_
  else
    setPrediction j ;;
    s' <- getStatus j ;;
    (if isStatus "succeeded" s' then
       clearInterval ;;
       setProgress 100 ;;
       setPredictionOn false
     else ret tt) ;;
    pollLoop url j rest.

Definition withError (e : option string) (m : Machine) : Machine :=
  mkMachine (message m) (progress m) (predictionOn m) (prediction m) e
            (progressValue m) (intervalActive m).

(** A prompt made of [n] copies of one character. *)
Fixpoint repeatChar (n : nat) (c : Ascii.ascii) : string :=
  match n with
  | O => EmptyString
  | S k => String c (repeatChar k c)
  end.

Definition promptOf (m : Machine) : string :=
  "in the style of TOK," ++ message m ++ " as a tattoo".

(** The state after [setError(null); setPredictionOn(true)]. *)
Definition submitted (m : Machine) : Machine :=
  mkMachine (message m) (progress m) true (prediction m) None
            (progressValue m) (intervalActive m).

(** The state after [setPrediction(j); setProgress(0); setInterval(...)]. *)
Definition started (j : JsonValue) (m : Machine) : Machine :=
  mkMachine (message m) 0 (predictionOn m) j (error m) 1 true.

Definition withPrediction (j : JsonValue) (m : Machine) : Machine :=
  mkMachine (message m) (progress m) (predictionOn m) j (error m)
            (progressValue m) (intervalActive m).

Definition withPredictionOn (b : bool) (m : Machine) : Machine :=
  mkMachine (message m) (progress m) b (prediction m) (error m)
            (progressValue m) (intervalActive m).

(** The effect of the [catch] clause on the result of the [try] block. *)
Definition catchResult {A} (h : Exn -> M A)
  (r : Machine * list Event * Completion A)
  : Machine * list Event * Completion A :=
  match completionOf r with
  | Thrown e => prepend (traceOf r) (h e (finalOf r))
  | _ => r
  end.

(** [prediction.detail] when the read does not throw. *)
Definition detailOf (j : JsonValue) : option string :=
  match j with
  | JRecord p => detail p
  | _ => None
  end.

(** The user-visible error a transport failure leaves behind: the [catch]
    clause writes none, so it is what the [try] block had written before the
    failure. *)
Definition errorAfterTransportFailure (create : FetchResult)
  : option string :=
  match create with
  | Response code BodyThrows =>
      if Nat.eqb code 429 then Some msgRateLimit else None
  | _ => None
  end.

(** The values written to progress by a run [r] and by [n] later firings of
    the callback: consecutive values from [v], stopping at 100, then possibly
    the forced 100. *)
Definition writesFrom (v n : nat)
  (r : Machine * list Event * Completion unit) : Prop :=
  exists k b,
    progressWrites (traceOf r) ++
    progressWrites (traceOf (ticks n (finalOf r))) =
      seq v k ++ (if b : bool then [100] else []) /\
    v + k <= 101.

(** ** More readers of a trace *)

(** The prompts of the creation requests issued, in order. *)
Definition createPrompt (e : Event) : list string :=
  match e with
  | FetchCreate p => [p]
  | _ => []
  end.

Definition createPrompts (t : list Event) : list string :=
  flat_map createPrompt t.

(** The addresses of the status fetches issued, in order. *)
Definition statusUrl (e : Event) : list string :=
  match e with
  | FetchStatus u => [u]
  | _ => []
  end.

Definition statusUrls (t : list Event) : list string :=
  flat_map statusUrl t.

(** ** The conditional sections of the page (lines 292-345) *)

(** [prediction.status] read by the render: [undefined] on a falsy value
    (the render guards the read with [prediction &&]). *)
Definition statusOf (j : JsonValue) : option string :=
  match j with
  | JRecord p => status p
  | _ => None
  end.

(** [prediction && prediction.status !== "succeeded"]: the four skeletons
    with the progress bar. *)
Definition showProgressSkeleton (m : Machine) : bool :=
  truthy (prediction m) && negb (isStatus "succeeded" (statusOf (prediction m))).

(** [!prediction]: the four sample images. *)
Definition showSampleGallery (m : Machine) : bool :=
  negb (truthy (prediction m)).

(** [disabled={predictionOn}] on the Go button. *)
Definition buttonDisabled (m : Machine) : bool := predictionOn m.

(** The state in which the handler leaves the page when it has cleared the
    interval: finished, on a [succeeded] Job, progress at 100, flag off. *)
Definition clearedOnSuccess
  (r : Machine * list Event * Completion unit) : Prop :=
  completionOf r = Normal tt /\
  isStatus "succeeded" (statusOf (prediction (finalOf r))) = true /\
  progress (finalOf r) = 100 /\
  predictionOn (finalOf r) = false /\
  intervalActive (finalOf r) = false.

(** ** [downloadImage] (lines 181-197)

    The environment of one download: what [fetch(src)] and [response.blob()]
    produce, the string [createObjectURL] returns, and the node
    [document.createElement('a')] returns.  Nodes are identified by a number;
    [document.body] is the list of its children. *)
Inductive BlobResult : Type :=
| BlobThrows
| BlobOk (blob : nat).

Inductive DownloadFetch : Type :=
| DownloadFetchThrows
| DownloadResponse (b : BlobResult).

Record Anchor : Type := mkAnchor {
  node : nat;
  href : string;
  downloadAttr : option string
}.

Inductive DomEvent : Type :=
| DomFetch (url : string)
| DomCreateObjectURL (blob : nat)
| DomAppend (a : Anchor)
| DomClick (a : Anchor)
| DomRemove (a : Anchor).

Inductive DownloadOutcome : Type :=
| Saved      (* the promise resolved *)
| Rejected   (* [fetch] or [blob] threw; nothing catches it *).

(** [if (!src.startsWith('http')) src = `${window.location.origin}${src}`] *)
Definition resolveSrc (origin src : string) : string :=
  if String.prefix "http" src then src else origin ++ src.

(** [document.body.appendChild(link)] for a node not in the document, and
    [document.body.removeChild(link)]. *)
Definition appendChild (n : nat) (body : list nat) : list nat := body ++ [n].
Definition removeChild (n : nat) (body : list nat) : list nat :=
  List.remove Nat.eq_dec n body.

Definition downloadImage (origin src : string) (fx : DownloadFetch)
  (objectUrl : string) (fresh : nat) (body : list nat)
  : list nat * list DomEvent * DownloadOutcome :=
  let url := resolveSrc origin src in
  match fx with
  | DownloadFetchThrows => (body, [DomFetch url], Rejected)
  | DownloadResponse BlobThrows => (body, [DomFetch url], Rejected)
  | DownloadResponse (BlobOk blob) =>
      let link := mkAnchor fresh objectUrl (Some "") in
      (removeChild fresh (appendChild fresh body),
       [DomFetch url; DomCreateObjectURL blob; DomAppend link; DomClick link;
        DomRemove link],
       Saved)
  end.

(** ** Several clicks on one page (lines 133-141)

    Every click that reaches line 133 creates a counter and an interval of its
    own, and nothing but the [succeeded] branch of the same click clears that
    interval.  A [Page] is the state of the latest click together with the
    counters of the intervals that earlier clicks left armed. *)
Record Page : Type := mkPage {
  current : Machine;
  leftover : list nat
}.

(** The page on which the next click happens, after a run that ended in [m]:
    the interval of that run, if still armed, goes on with its counter. *)
Definition nextClick (m : Machine) : Page :=
  mkPage (mkMachine (message m) (progress m) (predictionOn m) (prediction m)
                    (error m) (progressValue m) false)
         (if intervalActive m then [progressValue m] else []).

(** The callback of an earlier interval, with counter [v]:
    [if (progressValue <= 100) setProgress(progressValue++);
     else clearInterval(progressInterval);].  The result is the value written,
    if any, and the counters of the intervals still armed. *)
Fixpoint fireNth (i : nat) (ts : list nat) : option nat * list nat :=
  match ts with
  | [] => (None, [])
  | v :: rest =>
      match i with
      | O => if Nat.leb v 100 then (Some v, S v :: rest) else (None, rest)
      | S k => let '(w, rest') := fireNth k rest in (w, v :: rest')
      end
  end.

(** Which interval fires: the one of the latest click, or the [i]-th of the
    earlier ones. *)
Inductive Firing : Type :=
| Own
| Earlier (i : nat).

Definition fire (f : Firing) (pg : Page) : Page :=
  match f with
  | Own => mkPage (finalOf (tick (current pg))) (leftover pg)
  | Earlier i =>
      let '(w, ts) := fireNth i (leftover pg) in
      mkPage (match w with
              | Some v => finalOf (setProgress v (current pg))
              | None => current pg
              end) ts
  end.

(** The value of [progress] after each firing of a schedule. *)
Fixpoint progressHistory (fs : list Firing) (pg : Page) : list nat :=
  match fs with
  | [] => []
  | f :: rest =>
      progress (current (fire f pg)) :: progressHistory rest (fire f pg)
  end.

(** The state agrees with the trace: [progress] at the end of a run started
    in [m] is the last value the run wrote, or the one of [m] if it wrote
    none. *)
Definition progressTracked (m : Machine)
  (r : Machine * list Event * Completion unit) : Prop :=
  progress (finalOf r) = last (progressWrites (traceOf r)) (progress m).

(** * Proofs *)

(** ** Running the monad *)

Lemma prepend_nil {A} (r : Machine * list Event * Completion A) :
  prepend [] r = r.
Proof. destruct r as [[m t] c]. reflexivity. Qed.

Lemma prepend_prepend {A} t1 t2 (r : Machine * list Event * Completion A) :
  prepend t1 (prepend t2 r) = prepend (t1 ++ t2) r.
Proof.
  destruct r as [[m t] c]. unfold prepend, finalOf, traceOf, completionOf.
  simpl. now rewrite app_assoc.
Qed.

Lemma bind_normal {A B} (c : M A) (k : A -> M B) m m1 t1 a :
  c m = (m1, t1, Normal a) -> bind c k m = prepend t1 (k a m1).
Proof.
  intros H. unfold bind. rewrite H.
  destruct (k a m1) as [[m2 t2] r2]. reflexivity.
Qed.

Lemma bind_emit {B} e (k : unit -> M B) m :
  bind (emit e) k m = prepend [e] (k tt m).
Proof. now apply bind_normal. Qed.

Lemma bind_ret {A B} (a : A) (k : A -> M B) m : bind (ret a) k m = k a m.
Proof.
  unfold bind, ret. destruct (k a m) as [[m2 t2] r2]. reflexivity.
Qed.

Lemma finalOf_prepend {A} t (r : Machine * list Event * Completion A) :
  finalOf (prepend t r) = finalOf r.
Proof. reflexivity. Qed.

Lemma traceOf_prepend {A} t (r : Machine * list Event * Completion A) :
  traceOf (prepend t r) = t ++ traceOf r.
Proof. reflexivity. Qed.

Lemma completionOf_prepend {A} t (r : Machine * list Event * Completion A) :
  completionOf (prepend t r) = completionOf r.
Proof. reflexivity. Qed.

(** ** The interval callback *)

Lemma tick_normal m : completionOf (tick m) = Normal tt.
Proof.
  unfold tick. destruct (intervalActive m); [|reflexivity].
  destruct (Nat.leb (progressValue m) 100); reflexivity.
Qed.

Lemma ticks_normal n : forall m, completionOf (ticks n m) = Normal tt.
Proof.
  induction n as [|n IH]; intros m; [reflexivity|].
  simpl. unfold bind. pose proof (tick_normal m) as Ht.
  destruct (tick m) as [[m1 t1] r1]. simpl in Ht. subst r1.
  specialize (IH m1). destruct (ticks n m1) as [[m2 t2] r2].
  simpl in IH. now subst r2.
Qed.

Lemma ticks_eq n m :
  ticks n m = (finalOf (ticks n m), traceOf (ticks n m), Normal tt).
Proof.
  pose proof (ticks_normal n m) as H.
  destruct (ticks n m) as [[m1 t1] r1]. simpl in H. now subst r1.
Qed.

Lemma bind_ticks {B} n (k : unit -> M B) m :
  bind (ticks n) k m =
  prepend (traceOf (ticks n m)) (k tt (finalOf (ticks n m))).
Proof. apply bind_normal, ticks_eq. Qed.

(** The callback touches [progress] and its own two locals, nothing else. *)
Lemma tick_frame m :
  message (finalOf (tick m)) = message m /\
  predictionOn (finalOf (tick m)) = predictionOn m /\
  prediction (finalOf (tick m)) = prediction m /\
  error (finalOf (tick m)) = error m.
Proof.
  unfold tick. destruct (intervalActive m); [|now repeat split].
  destruct (Nat.leb (progressValue m) 100); now repeat split.
Qed.

Lemma ticks_frame n : forall m,
  message (finalOf (ticks n m)) = message m /\
  predictionOn (finalOf (ticks n m)) = predictionOn m /\
  prediction (finalOf (ticks n m)) = prediction m /\
  error (finalOf (ticks n m)) = error m.
Proof.
  induction n as [|n IH]; intros m; [now repeat split|].
  simpl. pose proof (tick_frame m) as Ht. pose proof (tick_normal m) as Hn.
  unfold bind. destruct (tick m) as [[m1 t1] r1]. simpl in Hn. subst r1.
  specialize (IH m1). destruct (ticks n m1) as [[m2 t2] r2].
  unfold finalOf in *. simpl in *.
  destruct Ht as (H1 & H2 & H3 & H4), IH as (I1 & I2 & I3 & I4).
  repeat split; congruence.
Qed.

Lemma tick_handlerEvents m : handlerEvents (traceOf (tick m)) = [].
Proof.
  unfold tick. destruct (intervalActive m); [|reflexivity].
  destruct (Nat.leb (progressValue m) 100); reflexivity.
Qed.

Lemma handlerEvents_app t1 t2 :
  handlerEvents (t1 ++ t2) = handlerEvents t1 ++ handlerEvents t2.
Proof. apply filter_app. Qed.

Lemma ticks_handlerEvents n : forall m,
  handlerEvents (traceOf (ticks n m)) = [].
Proof.
  induction n as [|n IH]; intros m; [reflexivity|].
  simpl. pose proof (tick_handlerEvents m) as Ht.
  pose proof (tick_normal m) as Hn.
  unfold bind. destruct (tick m) as [[m1 t1] r1]. simpl in Hn. subst r1.
  specialize (IH m1). destruct (ticks n m1) as [[m2 t2] r2].
  unfold traceOf in *. simpl in *.
  now rewrite handlerEvents_app, Ht, IH.
Qed.

(** A cleared interval stays silent. *)
Lemma ticks_inactive n : forall m,
  intervalActive m = false -> ticks n m = (m, [], Normal tt).
Proof.
  induction n as [|n IH]; intros m H; [reflexivity|].
  simpl. unfold bind, tick. rewrite H. now rewrite (IH m H).
Qed.

(** ** One iteration of the polling loop *)

Lemma getStatus_nonterminal cur :
  nonterminal cur = true ->
  exists s, getStatus cur = ret s /\ terminal s = false.
Proof.
  destruct cur as [| |c]; simpl; intros H; try discriminate.
  - now exists None.
  - exists (status c). split; [reflexivity|].
    now apply negb_true_iff in H.
Qed.

Lemma pollLoop_empty url cur m :
  nonterminal cur = true -> pollLoop url cur [] m = (m, [], Suspended).
Proof.
  intros H. destruct (getStatus_nonterminal cur H) as (s & Hs & Ht).
  simpl. rewrite Hs, bind_ret, Ht. reflexivity.
Qed.

Lemma pollLoop_wait url cur p rest m :
  nonterminal cur = true ->
  pollLoop url cur (p :: rest) m =
  prepend (waitEvents url p m)
    (match result p with
     | FetchThrows => throw FetchFailed
     | Response code BodyThrows => throw ParseFailed
     | Response code (BodyJson j) => onBody url code j rest
     end (afterWait p m)).
Proof.
  intros H. destruct (getStatus_nonterminal cur H) as (s & Hs & Ht).
  simpl. rewrite Hs, bind_ret, Ht.
  rewrite bind_emit, bind_ticks, bind_emit, bind_ticks.
  rewrite !prepend_prepend. unfold waitEvents, afterWait.
  f_equal.
  - simpl. now rewrite <- app_assoc.
Qed.

Lemma pollLoop_done url c polls m :
  terminal (status c) = true ->
  pollLoop url (JRecord c) polls m = (m, [], Normal tt).
Proof.
  intros H. destruct polls; simpl; now rewrite bind_ret, H.
Qed.

Lemma pollLoop_null url polls m :
  pollLoop url JNull polls m = (m, [], Thrown (NullDeref "status")).
Proof. destruct polls; reflexivity. Qed.

(** ** Validation (lines 78-84 and 175-178) *)

Lemma handle_empty create polls m :
  message m = "" ->
  handleButtonClick create polls m =
  (withError (Some msgNoText) m, [SetError (Some msgNoText)], Normal tt).
Proof.
  intros H. unfold handleButtonClick. rewrite H. reflexivity.
Qed.

Lemma handle_too_long create polls m :
  2000 < String.length (message m) ->
  handleButtonClick create polls m =
  (withError (Some msgTooLong) m,
   [SetError None; SetError (Some msgTooLong)], Returned).
Proof.
  intros H. unfold handleButtonClick.
  destruct (String.eqb_spec (message m) "") as [E|_].
  - rewrite E in H. simpl in H. lia.
  - apply Nat.ltb_lt in H.
    unfold bind, setError, return_, withError. simpl. rewrite H. reflexivity.
Qed.

(** C8.  An empty prompt and a prompt longer than 2000 characters are both
    refused before any network request: the trace of the handler holds no
    request at all, the handler finishes, the in-flight flag is left as it
    was, and the user-visible error is the "no text" message in the first
    case and the "exceeds 2000 characters" message in the second; the two
    messages differ. *)
Theorem C8_validation_fails_fast :
  forall create polls m,
    message m = "" \/ 2000 < String.length (message m) ->
    let r := handleButtonClick create polls m in
    requests (traceOf r) = 0 /\
    resolved (completionOf r) = true /\
    predictionOn (finalOf r) = predictionOn m /\
    error (finalOf r) =
      Some (if String.eqb (message m) "" then msgNoText else msgTooLong) /\
    msgNoText <> msgTooLong.
Proof.
  intros create polls m [H|H]; cbv zeta.
  - rewrite (handle_empty create polls m H), H.
    repeat split; discriminate.
  - rewrite (handle_too_long create polls m H).
    destruct (String.eqb_spec (message m) "") as [E|_].
    + rewrite E in H. simpl in H. lia.
    + repeat split; discriminate.
Qed.

Lemma C8_validation_witness :
  let m := handleInputChange (repeatChar 2001 "a"%char) initialMachine in
  let r := handleButtonClick FetchThrows [] m in
  2000 < String.length (message m) /\
  requests (traceOf r) = 0 /\
  error (finalOf r) = Some msgTooLong.
Proof.
  cbv zeta.
  assert (L : 2000 <
    String.length
      (message (handleInputChange (repeatChar 2001 "a"%char) initialMachine))).
  { vm_compute. lia. }
  split; [exact L|].
  destruct (C8_validation_fails_fast FetchThrows []
              (handleInputChange (repeatChar 2001 "a"%char) initialMachine)
              (or_intror L)) as (H1 & _ & _ & H4 & _).
  split; [exact H1|]. exact H4.
Defined.

(** ** The gallery *)

Lemma gallerySrc_defined out k :
  (1 <= k)%Z ->
  defined (gallerySrc out k) = true <-> (k <= Z.of_nat (length out))%Z.
Proof.
  intros Hk. unfold gallerySrc, jsIndex.
  destruct (Z.ltb_spec (Z.of_nat (length out) - k) 0) as [Hn|Hn].
  - simpl. split; [discriminate|lia].
  - destruct (nth_error out (Z.to_nat (Z.of_nat (length out) - k))) eqn:E.
    + simpl. split; [lia|reflexivity].
    + apply nth_error_None in E. lia.
Qed.

(** C10.  The gallery reads [output[length-1]] ... [output[length-4]] with no
    guard on the length.  With reads outside the array giving [None], the read
    at [length-k] is defined exactly when the list has at least [k] entries;
    so all four references are defined if and only if the list has at least 4
    entries, and for a non-empty list of fewer than 4 entries the first
    reference is defined while the read at [length-4] is out of bounds. *)
Theorem C10_gallery_needs_four_outputs :
  forall p out,
    output p = Some out ->
    galleryRefs (JRecord p) =
      Some [gallerySrc out 1; gallerySrc out 2;
            gallerySrc out 3; gallerySrc out 4] /\
    (forallb defined [gallerySrc out 1; gallerySrc out 2;
                      gallerySrc out 3; gallerySrc out 4] = true
     <-> 4 <= length out) /\
    (forall k, (2 <= k <= 4)%Z ->
       gallerySrc out k = None <-> (Z.of_nat (length out) < k)%Z) /\
    (0 < length out < 4 ->
       defined (gallerySrc out 1) = true /\ gallerySrc out 4 = None).
Proof.
  intros p out H.
  assert (D : forall k, (1 <= k)%Z ->
            gallerySrc out k = None <-> (Z.of_nat (length out) < k)%Z).
  { intros k Hk. pose proof (gallerySrc_defined out k Hk) as G.
    destruct (gallerySrc out k); simpl in G.
    - split; [discriminate|]. intros L.
      assert (k <= Z.of_nat (length out))%Z by now apply G. lia.
    - split; [|reflexivity]. intros _.
      destruct (Z.le_gt_cases k (Z.of_nat (length out))) as [L|L]; [|lia].
      apply G in L. discriminate. }
  split; [|split; [|split]].
  - simpl. now rewrite H.
  - simpl. rewrite !andb_true_iff.
    rewrite !gallerySrc_defined by lia. lia.
  - intros k Hk. apply D. lia.
  - intros L. split.
    + apply gallerySrc_defined; lia.
    + apply D; lia.
Qed.

Lemma C10_gallery_witness :
  let p := mkPrediction (Some ["a.png"; "b.png"]) (Some "processing")
                        (Some "j1") None in
  galleryRefs (JRecord p) = Some [Some "b.png"; Some "a.png"; None; None].
Proof.
  cbv zeta.
  destruct (C10_gallery_needs_four_outputs
              (mkPrediction (Some ["a.png"; "b.png"]) (Some "processing")
                            (Some "j1") None)
              ["a.png"; "b.png"] eq_refl) as (H & _).
  exact H.
Defined.

(** ** The handler on a valid prompt *)

Lemma tryCatch_eq {A} (body : M A) h m :
  tryCatch body h m = catchResult h (body m).
Proof.
  unfold tryCatch, catchResult. destruct (body m) as [[m1 t1] r1].
  destruct r1; try reflexivity.
  unfold prepend, finalOf, traceOf, completionOf. simpl.
  destruct (h e m1) as [[m2 t2] r2]. reflexivity.
Qed.

Lemma catchResult_prepend {A} (h : Exn -> M A) t r :
  catchResult h (prepend t r) = prepend t (catchResult h r).
Proof.
  destruct r as [[m1 t1] r1]. unfold catchResult.
  rewrite completionOf_prepend. simpl.
  destruct r1; try reflexivity.
  rewrite traceOf_prepend, finalOf_prepend. simpl.
  now rewrite prepend_prepend.
Qed.

Lemma catchBlock_eq e m :
  catchBlock e m =
  (withPredictionOn false m, [SetPredictionOn false; ConsoleLog e], Normal tt).
Proof. reflexivity. Qed.

Lemma validMessage_inv s :
  validMessage s = true ->
  String.eqb s "" = false /\ Nat.ltb 2000 (String.length s) = false.
Proof.
  unfold validMessage. intros H. apply andb_true_iff in H as [H1 H2].
  apply negb_true_iff in H1. apply Nat.leb_le in H2.
  split; [exact H1|]. apply Nat.ltb_ge. exact H2.
Qed.

Lemma handle_valid create polls m :
  validMessage (message m) = true ->
  handleButtonClick create polls m =
  prepend [SetError None; SetPredictionOn true]
    (catchResult catchBlock (tryBody (promptOf m) create polls (submitted m))).
Proof.
  intros H. apply validMessage_inv in H as [H1 H2].
  unfold handleButtonClick. rewrite H1.
  rewrite (bind_normal _ _ m (withError None m) [SetError None] tt eq_refl).
  simpl message. rewrite H2.
  rewrite (bind_normal _ _ (withError None m) (submitted m)
             [SetPredictionOn true] tt eq_refl).
  rewrite tryCatch_eq, prepend_prepend. reflexivity.
Qed.

(** The handler's promise is never rejected: whatever the [try] block throws
    is caught, and the [catch] clause itself cannot throw. *)
Lemma handle_never_rejects create polls m :
  rejected (completionOf (handleButtonClick create polls m)) = false.
Proof.
  unfold handleButtonClick.
  destruct (String.eqb (message m) ""); [reflexivity|].
  rewrite (bind_normal _ _ m (withError None m) [SetError None] tt eq_refl).
  rewrite completionOf_prepend. simpl message.
  destruct (Nat.ltb 2000 (String.length (message m))); [reflexivity|].
  rewrite (bind_normal _ _ (withError None m) (submitted m)
             [SetPredictionOn true] tt eq_refl).
  rewrite completionOf_prepend, tryCatch_eq. unfold catchResult.
  destruct (tryBody _ create polls (submitted m)) as [[m1 t1] r1].
  destruct r1; reflexivity.
Qed.

(** *** Outcomes of the creation request *)

Lemma tryBody_fetch_throws prompt polls m :
  tryBody prompt FetchThrows polls m =
  (m, [FetchCreate prompt], Thrown FetchFailed).
Proof. reflexivity. Qed.

Lemma tryBody_created prompt j polls m :
  truthy j = true ->
  tryBody prompt (Response 201 (BodyJson j)) polls m =
  prepend [FetchCreate prompt; SetPrediction j; SetProgress 0;
           SetInterval progressIntervalMs]
    (pollLoop (predictionsIdUrl j) j polls (started j m)).
Proof.
  intros H. unfold tryBody. rewrite bind_emit.
  change (negb (ok 201)) with false. cbv iota. rewrite bind_ret.
  change (negb (Nat.eqb 201 201)) with false. cbv iota. rewrite H.
  rewrite (bind_normal _ _ m (withPrediction j m) [SetPrediction j] tt eq_refl).
  rewrite (bind_normal _ _ (withPrediction j m)
             (mkMachine (message m) 0 (predictionOn m) j (error m)
                        (progressValue m) (intervalActive m))
             [SetProgress 0] tt eq_refl).
  rewrite (bind_normal _ _
             (mkMachine (message m) 0 (predictionOn m) j (error m)
                        (progressValue m) (intervalActive m))
             (started j m) [SetInterval progressIntervalMs] tt eq_refl).
  rewrite !prepend_prepend. reflexivity.
Qed.

Lemma tryBody_accepted prompt create polls m :
  accepted create = true ->
  exists j,
    create = Response 201 (BodyJson j) /\ truthy j = true /\
    nonterminal j = true /\
    tryBody prompt create polls m =
    prepend [FetchCreate prompt; SetPrediction j; SetProgress 0;
             SetInterval progressIntervalMs]
      (pollLoop (predictionsIdUrl j) j polls (started j m)).
Proof.
  destruct create as [|code [|j]]; simpl; try discriminate.
  intros H. apply andb_true_iff in H as [H H3].
  apply andb_true_iff in H as [H1 H2]. apply Nat.eqb_eq in H1. subst code.
  exists j. repeat split; try assumption.
  now apply tryBody_created.
Qed.

(** *** The loop body on a parsed response *)

Lemma nonterminal_not_succeeded j s :
  getStatus j = ret s -> terminal s = false ->
  isStatus "succeeded" s = false.
Proof.
  intros _ H. unfold terminal in H. now apply orb_false_iff in H as [H _].
Qed.

Lemma onBody_continue url j rest m :
  nonterminal j = true ->
  onBody url 200 j rest m =
  prepend [SetPrediction j] (pollLoop url j rest (withPrediction j m)).
Proof.
  intros H. destruct (getStatus_nonterminal j H) as (s & Hs & Ht).
  unfold onBody. change (negb (Nat.eqb 200 200)) with false. cbv iota.
  rewrite (bind_normal _ _ m (withPrediction j m) [SetPrediction j] tt eq_refl).
  rewrite Hs, bind_ret, (nonterminal_not_succeeded j s Hs Ht), bind_ret.
  reflexivity.
Qed.

Lemma onBody_succeeded url c rest m :
  status c = Some "succeeded" ->
  onBody url 200 (JRecord c) rest m =
  (mkMachine (message m) 100 false (JRecord c) (error m)
             (progressValue m) false,
   [SetPrediction (JRecord c); ClearInterval; SetProgress 100;
    SetPredictionOn false],
   Normal tt).
Proof.
  intros H. unfold onBody. change (negb (Nat.eqb 200 200)) with false. cbv iota.
  rewrite (bind_normal _ _ m (withPrediction (JRecord c) m)
             [SetPrediction (JRecord c)] tt eq_refl).
  simpl getStatus. rewrite bind_ret, H. simpl isStatus. cbv iota.
  set (m1 := mkMachine (message m) 100 false (JRecord c) (error m)
                       (progressValue m) false).
  rewrite (bind_normal _ _ (withPrediction (JRecord c) m) m1
             [ClearInterval; SetProgress 100; SetPredictionOn false] tt
             eq_refl).
  rewrite pollLoop_done by (rewrite H; reflexivity).
  reflexivity.
Qed.

Lemma onBody_failed url c rest m :
  status c = Some "failed" ->
  onBody url 200 (JRecord c) rest m =
  (withPrediction (JRecord c) m, [SetPrediction (JRecord c)], Normal tt).
Proof.
  intros H. unfold onBody. change (negb (Nat.eqb 200 200)) with false. cbv iota.
  rewrite (bind_normal _ _ m (withPrediction (JRecord c) m)
             [SetPrediction (JRecord c)] tt eq_refl).
  simpl getStatus. rewrite bind_ret, H. simpl isStatus. cbv iota.
  rewrite bind_ret.
  rewrite pollLoop_done by (rewrite H; reflexivity).
  reflexivity.
Qed.

(** *** A run of continuing polls *)

Lemma pollLoop_prefix pre : forall url cur rest m,
  nonterminal cur = true ->
  forallb continues pre = true ->
  exists m' t,
    pollLoop url cur (pre ++ rest) m =
      prepend t (pollLoop url (lastJob cur pre) rest m') /\
    nonterminal (lastJob cur pre) = true /\
    message m' = message m /\
    predictionOn m' = predictionOn m /\
    error m' = error m.
Proof.
  induction pre as [|p pre IH]; intros url cur rest m Hc Hp.
  - exists m, []. rewrite prepend_nil. now repeat split.
  - simpl in Hp. apply andb_true_iff in Hp as [Hp Hpre].
    unfold continues in Hp.
    destruct (result p) as [|code [|j]] eqn:R; try discriminate.
    apply andb_true_iff in Hp as [Hcode Hj]. apply Nat.eqb_eq in Hcode.
    subst code.
    destruct (IH url j rest (withPrediction j (afterWait p m)) Hj Hpre)
      as (m' & t & E & Hn & Hm & Ho & He).
    exists m', (waitEvents url p m ++ SetPrediction j :: t).
    simpl app. rewrite (pollLoop_wait url cur p (pre ++ rest) m Hc), R.
    rewrite (onBody_continue url j (pre ++ rest) _ Hj), E.
    rewrite !prepend_prepend, <- app_assoc. simpl lastJob. rewrite R.
    split; [reflexivity|]. split; [exact Hn|].
    unfold afterWait in *. simpl in Hm, Ho, He.
    destruct (ticks_frame (ticksSleep p) m) as (A1 & A2 & _ & A4).
    destruct (ticks_frame (ticksFetch p) (finalOf (ticks (ticksSleep p) m)))
      as (B1 & B2 & _ & B4).
    repeat split; congruence.
Qed.

(** From the click to the first poll that does not merely continue. *)
Lemma handle_polling create pre rest m :
  validMessage (message m) = true ->
  accepted create = true ->
  forallb continues pre = true ->
  exists j m' t,
    create = Response 201 (BodyJson j) /\
    nonterminal (lastJob j pre) = true /\
    handleButtonClick create (pre ++ rest) m =
      prepend t
        (catchResult catchBlock
           (pollLoop (predictionsIdUrl j) (lastJob j pre) rest m')) /\
    message m' = message m /\
    predictionOn m' = true /\
    error m' = None.
Proof.
  intros Hv Ha Hp.
  destruct (tryBody_accepted (promptOf m) create (pre ++ rest) (submitted m) Ha)
    as (j & Hc & _ & Hj & E).
  destruct (pollLoop_prefix pre (predictionsIdUrl j) j rest
              (started j (submitted m)) Hj Hp)
    as (m' & t & E' & Hn & Hm & Ho & He).
  exists j, m'.
  exists ([SetError None; SetPredictionOn true] ++
          [FetchCreate (promptOf m); SetPrediction j; SetProgress 0;
           SetInterval progressIntervalMs] ++ t).
  split; [exact Hc|]. split; [exact Hn|].
  split; [|now repeat split].
  rewrite (handle_valid create (pre ++ rest) m Hv), E, E'.
  now rewrite prepend_prepend, !catchResult_prepend, !prepend_prepend.
Qed.

(** ** Success (lines 155-159) *)

(** C6.  When, after an accepted submission and any number of continuing
    polls, a poll answered with HTTP 200 reports status [succeeded], the
    handler publishes that Job, clears the interval, sets progress to exactly
    100 and the in-flight flag to false, in this order, and finishes; the
    interval this run started, once cleared, does not fire again. *)
Theorem C6_succeeded_stops_timer_and_forces_100 :
  forall create pre p c rest m,
    validMessage (message m) = true ->
    accepted create = true ->
    forallb continues pre = true ->
    result p = Response 200 (BodyJson (JRecord c)) ->
    status c = Some "succeeded" ->
    let r := handleButtonClick create (pre ++ p :: rest) m in
    intervalActive (finalOf r) = false /\
    progress (finalOf r) = 100 /\
    predictionOn (finalOf r) = false /\
    prediction (finalOf r) = JRecord c /\
    completionOf r = Normal tt /\
    (exists t, traceOf r =
       t ++ [SetPrediction (JRecord c); ClearInterval; SetProgress 100;
             SetPredictionOn false]) /\
    (forall n, ticks n (finalOf r) = (finalOf r, [], Normal tt)).
Proof.
  intros create pre p c rest m Hv Ha Hp R S. cbv zeta.
  destruct (handle_polling create pre (p :: rest) m Hv Ha Hp)
    as (j & m' & t & _ & Hn & E & _).
  rewrite E, (pollLoop_wait _ _ p rest m' Hn), R.
  rewrite (onBody_succeeded _ c rest _ S).
  rewrite catchResult_prepend, prepend_prepend.
  unfold catchResult, prepend, finalOf, traceOf, completionOf. simpl.
  repeat split.
  - eexists. reflexivity.
  - intros n. now apply ticks_inactive.
Qed.

Lemma C6_succeeded_witness :
  let m := handleInputChange "tiger" initialMachine in
  let job s := mkPrediction (Some ["a.png"]) (Some s) (Some "j1") None in
  let r := handleButtonClick
             (Response 201 (BodyJson (JRecord (job "starting"))))
             ([mkPoll 2 1 (Response 200 (BodyJson (JRecord (job "processing"))))]
              ++ mkPoll 3 0 (Response 200 (BodyJson (JRecord (job "succeeded"))))
              :: []) m in
  intervalActive (finalOf r) = false /\
  progress (finalOf r) = 100 /\
  predictionOn (finalOf r) = false.
Proof.
  cbv zeta.
  destruct (C6_succeeded_stops_timer_and_forces_100
              (Response 201 (BodyJson (JRecord
                 (mkPrediction (Some ["a.png"]) (Some "starting")
                               (Some "j1") None))))
              [mkPoll 2 1 (Response 200 (BodyJson (JRecord
                 (mkPrediction (Some ["a.png"]) (Some "processing")
                               (Some "j1") None))))]
              (mkPoll 3 0 (Response 200 (BodyJson (JRecord
                 (mkPrediction (Some ["a.png"]) (Some "succeeded")
                               (Some "j1") None)))))
              (mkPrediction (Some ["a.png"]) (Some "succeeded")
                            (Some "j1") None)
              []
              (handleInputChange "tiger" initialMachine)
              eq_refl eq_refl eq_refl eq_refl eq_refl)
    as (H1 & H2 & H3 & _).
  repeat split; assumption.
Defined.

(** ** Rejected creation requests (lines 105-123) *)

Lemma ok_not_429 code : ok code = true -> Nat.eqb code 429 = false.
Proof.
  unfold ok. intros H. apply andb_true_iff in H as [_ H].
  apply Nat.leb_le in H. apply Nat.eqb_neq. lia.
Qed.

Lemma getDetail_nonnull j :
  j <> JNull -> getDetail j = ret (detailOf j).
Proof. destruct j; [congruence|reflexivity|reflexivity]. Qed.

Lemma tryBody_http_error prompt code body polls m :
  ok code = false -> code <> 429 ->
  tryBody prompt (Response code body) polls m =
  (m, [FetchCreate prompt], Thrown (HttpError code)).
Proof.
  intros H1 H2. apply Nat.eqb_neq in H2.
  unfold tryBody. rewrite bind_emit, H1, H2. reflexivity.
Qed.

Lemma tryBody_not_created prompt code j polls m :
  ok code = true -> code <> 201 -> j <> JNull ->
  tryBody prompt (Response code (BodyJson j)) polls m =
  (withPredictionOn false (withError (detailOf j) m),
   [FetchCreate prompt; SetError (detailOf j); SetPredictionOn false],
   Returned).
Proof.
  intros H1 H2 H3. apply Nat.eqb_neq in H2.
  unfold tryBody. rewrite bind_emit, H1. cbn [negb].
  rewrite bind_ret, H2. cbn [negb].
  rewrite (getDetail_nonnull j H3), bind_ret. reflexivity.
Qed.

Lemma tryBody_429 prompt j polls m :
  j <> JNull ->
  tryBody prompt (Response 429 (BodyJson j)) polls m =
  (withPredictionOn false (withError (detailOf j) m),
   [FetchCreate prompt; SetError (Some msgRateLimit); SetPredictionOn false;
    SetError (detailOf j); SetPredictionOn false],
   Returned).
Proof.
  intros H. unfold tryBody. rewrite bind_emit.
  change (negb (ok 429)) with true. change (Nat.eqb 429 429) with true.
  cbv iota.
  rewrite (bind_normal _ _ m
             (withPredictionOn false (withError (Some msgRateLimit) m))
             [SetError (Some msgRateLimit); SetPredictionOn false] tt eq_refl).
  change (negb (Nat.eqb 429 201)) with true. cbv iota.
  rewrite (getDetail_nonnull j H), bind_ret. reflexivity.
Qed.

Lemma tryBody_body_throws_ok prompt code polls m :
  ok code = true ->
  tryBody prompt (Response code BodyThrows) polls m =
  (m, [FetchCreate prompt], Thrown ParseFailed).
Proof.
  intros H. unfold tryBody. rewrite bind_emit, H. reflexivity.
Qed.

Lemma tryBody_body_throws_429 prompt polls m :
  tryBody prompt (Response 429 BodyThrows) polls m =
  (withPredictionOn false (withError (Some msgRateLimit) m),
   [FetchCreate prompt; SetError (Some msgRateLimit); SetPredictionOn false],
   Thrown ParseFailed).
Proof. reflexivity. Qed.

(** A 429 response whose body parses: the rate-limit message is written and
    then replaced by the body's [detail], whatever it is. *)
Lemma handle_429_parsed j polls m :
  validMessage (message m) = true -> j <> JNull ->
  handleButtonClick (Response 429 (BodyJson j)) polls m =
  (mkMachine (message m) (progress m) false (prediction m) (detailOf j)
             (progressValue m) (intervalActive m),
   [SetError None; SetPredictionOn true; FetchCreate (promptOf m);
    SetError (Some msgRateLimit); SetPredictionOn false;
    SetError (detailOf j); SetPredictionOn false],
   Returned).
Proof.
  intros Hv Hj. rewrite (handle_valid _ polls m Hv).
  rewrite (tryBody_429 _ j polls _ Hj). reflexivity.
Qed.

(** C2.  A creation request answered with HTTP 429 and a JSON body: the
    handler writes the rate-limit message, does not return, and overwrites it
    with the body's [detail]; the message the user is left with is that
    [detail], or nothing at all when the body has none.  The in-flight flag
    does end false and no status fetch is issued. *)
Theorem C2_rate_limit_message_is_overwritten :
  let m := handleInputChange "tiger" initialMachine in
  let r1 := handleButtonClick
              (Response 429 (BodyJson (JRecord
                 (mkPrediction None None None (Some "slow down"))))) [] m in
  let r2 := handleButtonClick
              (Response 429 (BodyJson (JRecord
                 (mkPrediction None None None None)))) [] m in
  error (finalOf r1) = Some "slow down" /\
  error (finalOf r1) <> Some msgRateLimit /\
  error (finalOf r2) = None /\
  traceOf r1 =
    [SetError None; SetPredictionOn true;
     FetchCreate "in the style of TOK,tiger as a tattoo";
     SetError (Some msgRateLimit); SetPredictionOn false;
     SetError (Some "slow down"); SetPredictionOn false] /\
  predictionOn (finalOf r1) = false /\
  predictionOn (finalOf r2) = false /\
  statusFetches (traceOf r1) = 0 /\
  statusFetches (traceOf r2) = 0.
Proof.
  cbv zeta. repeat split; try reflexivity.
  vm_compute. discriminate.
Qed.

(** ** Transport failures (lines 168-173) *)

Lemma accepted_errorAfter create :
  accepted create = true -> errorAfterTransportFailure create = None.
Proof. destruct create as [|code [|j]]; simpl; intros; congruence. Qed.

(** C3, as the code has it.  Whenever the creation fetch, a poll fetch or a
    body parse throws, the handler does not let the exception escape: its
    promise resolves, the in-flight flag ends false, and the exception is
    written to the console.  No failure message is shown: the user-visible
    error stays absent, except that the rate-limit message written for a 429
    response stays when that response's body fails to parse. *)
Theorem C3_transport_failure_is_caught_and_logged :
  forall create polls m,
    validMessage (message m) = true ->
    TransportFailure create polls ->
    let r := handleButtonClick create polls m in
    resolved (completionOf r) = true /\
    rejected (completionOf r) = false /\
    predictionOn (finalOf r) = false /\
    error (finalOf r) = errorAfterTransportFailure create /\
    (exists t e, traceOf r = t ++ [SetPredictionOn false; ConsoleLog e]).
Proof.
  intros create polls m Hv T. cbv zeta.
  destruct T as [polls|code polls Hc|create pre p rest Ha Hp Hf].
  - rewrite (handle_valid _ polls m Hv), tryBody_fetch_throws.
    repeat split.
    exists [SetError None; SetPredictionOn true; FetchCreate (promptOf m)],
           FetchFailed.
    reflexivity.
  - rewrite (handle_valid _ polls m Hv). simpl errorAfterTransportFailure.
    destruct (ok code) eqn:O.
    + rewrite (tryBody_body_throws_ok _ code polls _ O), (ok_not_429 code O).
      repeat split.
      exists [SetError None; SetPredictionOn true; FetchCreate (promptOf m)],
             ParseFailed.
      reflexivity.
    + simpl in Hc. apply Nat.eqb_eq in Hc. subst code.
      rewrite tryBody_body_throws_429.
      repeat split.
      exists [SetError None; SetPredictionOn true; FetchCreate (promptOf m);
              SetError (Some msgRateLimit); SetPredictionOn false],
             ParseFailed.
      reflexivity.
  - destruct (handle_polling create pre (p :: rest) m Hv Ha Hp)
      as (j & m' & t & _ & Hn & E & _ & _ & He).
    rewrite E, (pollLoop_wait _ _ p rest m' Hn), (accepted_errorAfter _ Ha).
    assert (Herr : error (afterWait p m') = None).
    { unfold afterWait.
      destruct (ticks_frame (ticksSleep p) m') as (_ & _ & _ & A).
      destruct (ticks_frame (ticksFetch p) (finalOf (ticks (ticksSleep p) m')))
        as (_ & _ & _ & B).
      congruence. }
    unfold transportFails in Hf.
    destruct (result p) as [|code [|j']]; try discriminate.
    + rewrite catchResult_prepend, prepend_prepend.
      repeat split; try exact Herr.
      exists (t ++ waitEvents (predictionsIdUrl j) p m'), FetchFailed.
      reflexivity.
    + rewrite catchResult_prepend, prepend_prepend.
      repeat split; try exact Herr.
      exists (t ++ waitEvents (predictionsIdUrl j) p m'), ParseFailed.
      reflexivity.
Qed.

Lemma C3_transport_failure_witness :
  let m := handleInputChange "tiger" initialMachine in
  let job s := mkPrediction (Some []) (Some s) (Some "j1") None in
  let create := Response 201 (BodyJson (JRecord (job "starting"))) in
  let polls :=
    [mkPoll 2 1 (Response 200 (BodyJson (JRecord (job "processing"))))] ++
    mkPoll 3 0 FetchThrows :: [] in
  TransportFailure create polls /\
  predictionOn (finalOf (handleButtonClick create polls m)) = false /\
  error (finalOf (handleButtonClick create polls m)) = None.
Proof.
  cbv zeta.
  assert (T : TransportFailure
    (Response 201 (BodyJson (JRecord
       (mkPrediction (Some []) (Some "starting") (Some "j1") None))))
    ([mkPoll 2 1 (Response 200 (BodyJson (JRecord
        (mkPrediction (Some []) (Some "processing") (Some "j1") None))))] ++
     mkPoll 3 0 FetchThrows :: [])).
  { apply tf_poll; reflexivity. }
  split; [exact T|].
  destruct (C3_transport_failure_is_caught_and_logged _ _
              (handleInputChange "tiger" initialMachine) eq_refl T)
    as (_ & _ & H3 & H4 & _).
  split; [exact H3|exact H4].
Defined.

(** C3, as the specification words it, fails: when the creation fetch throws
    the handler resolves with the in-flight flag cleared but with no
    user-visible error at all; the failure only reaches the console. *)
Lemma C3_no_failure_message_is_surfaced :
  let m := handleInputChange "tiger" initialMachine in
  let r := handleButtonClick FetchThrows [] m in
  TransportFailure FetchThrows [] /\
  traceOf r =
    [SetError None; SetPredictionOn true;
     FetchCreate "in the style of TOK,tiger as a tattoo";
     SetPredictionOn false; ConsoleLog FetchFailed] /\
  ~ (exists msg, error (finalOf r) = Some msg).
Proof.
  cbv zeta. split; [constructor|]. split; [reflexivity|].
  intros [msg H]. vm_compute in H. discriminate.
Qed.

(** ** Other non-success creation responses *)

(** C9, as the code has it.  For a creation response with a parsed, non-null
    body whose status is neither 201 nor 429, the handler issues no status
    fetch, resolves, and clears the in-flight flag.  The body's [detail]
    becomes the user-visible error, verbatim, when the status is in 200..299;
    for a status outside 200..299 the handler raises [HTTP error!] instead,
    which is caught and logged, and the user-visible error stays absent. *)
Theorem C9_detail_surfaced_only_for_2xx :
  forall code j polls m,
    validMessage (message m) = true ->
    code <> 201 -> code <> 429 -> j <> JNull ->
    let r := handleButtonClick (Response code (BodyJson j)) polls m in
    statusFetches (traceOf r) = 0 /\
    resolved (completionOf r) = true /\
    predictionOn (finalOf r) = false /\
    error (finalOf r) = (if ok code then detailOf j else None) /\
    traceOf r =
      [SetError None; SetPredictionOn true; FetchCreate (promptOf m)] ++
      (if ok code
       then [SetError (detailOf j); SetPredictionOn false]
       else [SetPredictionOn false; ConsoleLog (HttpError code)]).
Proof.
  intros code j polls m Hv H1 H2 Hj. cbv zeta.
  rewrite (handle_valid _ polls m Hv).
  destruct (ok code) eqn:O.
  - rewrite (tryBody_not_created _ code j polls _ O H1 Hj).
    repeat split.
  - rewrite (tryBody_http_error _ code _ polls _ O H2).
    repeat split.
Qed.

Lemma C9_detail_witness :
  let m := handleInputChange "tiger" initialMachine in
  let body := JRecord (mkPrediction None None None (Some "not created")) in
  let r := handleButtonClick (Response 200 (BodyJson body)) [] m in
  statusFetches (traceOf r) = 0 /\
  predictionOn (finalOf r) = false /\
  error (finalOf r) = Some "not created".
Proof.
  cbv zeta.
  assert (N1 : 200 <> 201) by discriminate.
  assert (N2 : 200 <> 429) by discriminate.
  assert (N3 : JRecord (mkPrediction None None None (Some "not created"))
               <> JNull) by discriminate.
  destruct (C9_detail_surfaced_only_for_2xx 200
              (JRecord (mkPrediction None None None (Some "not created")))
              [] (handleInputChange "tiger" initialMachine)
              eq_refl N1 N2 N3) as (H1 & _ & H3 & H4 & _).
  repeat split; assumption.
Defined.

(** C9, as the specification words it, fails: a creation response with
    status 500 and [detail] "boom" leaves no user-visible error; the handler
    throws before it reads the body. *)
Lemma C9_detail_dropped_on_500 :
  let m := handleInputChange "tiger" initialMachine in
  let body := JRecord (mkPrediction None None None (Some "boom")) in
  let r := handleButtonClick (Response 500 (BodyJson body)) [] m in
  500 <> 201 /\ 500 <> 429 /\
  error (finalOf r) = None /\
  error (finalOf r) <> detailOf body /\
  traceOf r =
    [SetError None; SetPredictionOn true;
     FetchCreate "in the style of TOK,tiger as a tattoo";
     SetPredictionOn false; ConsoleLog (HttpError 500)].
Proof.
  cbv zeta. repeat split; try discriminate.
Qed.

(** ** Terminal and aborted polls that skip the cleanup *)

Lemma afterWait_predictionOn p m :
  predictionOn (afterWait p m) = predictionOn m.
Proof.
  unfold afterWait.
  destruct (ticks_frame (ticksSleep p) m) as (_ & A & _).
  destruct (ticks_frame (ticksFetch p) (finalOf (ticks (ticksSleep p) m)))
    as (_ & B & _).
  congruence.
Qed.

Lemma onBody_non200 url code j rest m :
  code <> 200 -> j <> JNull ->
  onBody url code j rest m =
  (withError (detailOf j) m, [SetError (detailOf j)], Returned).
Proof.
  intros H Hj. apply Nat.eqb_neq in H. unfold onBody. rewrite H. cbn [negb].
  rewrite (getDetail_nonnull j Hj), bind_ret. reflexivity.
Qed.

(** Whenever the poll that follows a run of continuing polls reports
    [failed], the handler finishes with the in-flight flag still true. *)
Lemma handle_failed_keeps_flag create pre p c rest m :
  validMessage (message m) = true ->
  accepted create = true ->
  forallb continues pre = true ->
  result p = Response 200 (BodyJson (JRecord c)) ->
  status c = Some "failed" ->
  let r := handleButtonClick create (pre ++ p :: rest) m in
  completionOf r = Normal tt /\ predictionOn (finalOf r) = true.
Proof.
  intros Hv Ha Hp R S. cbv zeta.
  destruct (handle_polling create pre (p :: rest) m Hv Ha Hp)
    as (j & m' & t & _ & Hn & E & _ & Ho & _).
  rewrite E, (pollLoop_wait _ _ p rest m' Hn), R.
  rewrite (onBody_failed _ c rest _ S).
  rewrite catchResult_prepend, prepend_prepend.
  split; [reflexivity|].
  rewrite finalOf_prepend. unfold catchResult, finalOf. cbn.
  now rewrite afterWait_predictionOn.
Qed.

(** Whenever that poll is answered with a status other than 200, the handler
    returns with the body's [detail] as error and the flag still true. *)
Lemma handle_non200_keeps_flag create pre p code j' rest m :
  validMessage (message m) = true ->
  accepted create = true ->
  forallb continues pre = true ->
  result p = Response code (BodyJson j') ->
  code <> 200 -> j' <> JNull ->
  let r := handleButtonClick create (pre ++ p :: rest) m in
  completionOf r = Returned /\
  error (finalOf r) = detailOf j' /\
  predictionOn (finalOf r) = true.
Proof.
  intros Hv Ha Hp R Hc Hj. cbv zeta.
  destruct (handle_polling create pre (p :: rest) m Hv Ha Hp)
    as (j & m' & t & _ & Hn & E & _ & Ho & _).
  rewrite E, (pollLoop_wait _ _ p rest m' Hn), R.
  rewrite (onBody_non200 _ code j' rest _ Hc Hj).
  rewrite catchResult_prepend, prepend_prepend.
  split; [reflexivity|]. split; [reflexivity|].
  rewrite finalOf_prepend. unfold catchResult, finalOf. cbn.
  now rewrite afterWait_predictionOn.
Qed.

(** C1.  An accepted submission whose second poll reports [failed]: the loop
    stops after that poll (two status fetches, the third scripted poll is
    never used) and the handler finishes, but nothing clears the in-flight
    flag or the interval: the flag ends true, the trace holds no
    [ClearInterval], the interval is still armed, and its next firing moves
    progress from 6 to 7. *)
Theorem C1_failed_leaves_flag_and_timer :
  let m := handleInputChange "tiger" initialMachine in
  let job s := JRecord (mkPrediction (Some []) (Some s) (Some "j1") None) in
  let r := handleButtonClick
             (Response 201 (BodyJson (job "starting")))
             [mkPoll 2 1 (Response 200 (BodyJson (job "processing")));
              mkPoll 3 0 (Response 200 (BodyJson (job "failed")));
              mkPoll 3 0 (Response 200 (BodyJson (job "succeeded")))] m in
  completionOf r = Normal tt /\
  statusFetches (traceOf r) = 2 /\
  prediction (finalOf r) = job "failed" /\
  predictionOn (finalOf r) = true /\
  ~ In ClearInterval (traceOf r) /\
  intervalActive (finalOf r) = true /\
  progress (finalOf r) = 6 /\
  progress (finalOf (tick (finalOf r))) = 7.
Proof.
  cbv zeta. repeat split; try reflexivity.
  vm_compute. intros H.
  repeat (destruct H as [H|H]; [discriminate|]). exact H.
Qed.

(** C4.  An accepted submission whose first poll is answered with status 500
    and [detail] "boom": the handler shows "boom" and returns at once, so the
    second scripted poll is never fetched; but the in-flight flag ends true,
    the trace holds no [ClearInterval], the interval is still armed, and its
    next firing moves progress from 3 to 4. *)
Theorem C4_non200_poll_leaves_flag_and_timer :
  let m := handleInputChange "tiger" initialMachine in
  let job s := JRecord (mkPrediction (Some []) (Some s) (Some "j1") None) in
  let r := handleButtonClick
             (Response 201 (BodyJson (job "starting")))
             [mkPoll 2 1 (Response 500 (BodyJson (JRecord
                (mkPrediction None None None (Some "boom")))));
              mkPoll 3 0 (Response 200 (BodyJson (job "succeeded")))] m in
  completionOf r = Returned /\
  error (finalOf r) = Some "boom" /\
  statusFetches (traceOf r) = 1 /\
  predictionOn (finalOf r) = true /\
  ~ In ClearInterval (traceOf r) /\
  intervalActive (finalOf r) = true /\
  progress (finalOf r) = 3 /\
  progress (finalOf (tick (finalOf r))) = 4.
Proof.
  cbv zeta. repeat split; try reflexivity.
  vm_compute. intros H.
  repeat (destruct H as [H|H]; [discriminate|]). exact H.
Qed.

(** ** The polling loop against its specification (lines 143-161) *)

Lemma onBody_not_succeeded url c rest m :
  isStatus "succeeded" (status c) = false ->
  onBody url 200 (JRecord c) rest m =
  prepend [SetPrediction (JRecord c)]
    (pollLoop url (JRecord c) rest (withPrediction (JRecord c) m)).
Proof.
  intros H. unfold onBody. change (negb (Nat.eqb 200 200)) with false.
  cbv iota.
  rewrite (bind_normal _ _ m (withPrediction (JRecord c) m)
             [SetPrediction (JRecord c)] tt eq_refl).
  simpl getStatus. rewrite bind_ret, H, bind_ret. reflexivity.
Qed.

Lemma isStatus_true lit s : isStatus lit s = true -> s = Some lit.
Proof.
  destruct s as [x|]; simpl; [|discriminate].
  intros H. apply String.eqb_eq in H. now subst.
Qed.

Lemma consumedJobs_terminal s jobs :
  terminal s = true -> consumedJobs s jobs = [].
Proof. intros H. destruct jobs; simpl; [reflexivity|now rewrite H]. Qed.

Lemma consumedJobs_cons s j rest :
  consumedJobs s (j :: rest) =
  if terminal s then [] else j :: consumedJobs (status j) rest.
Proof. reflexivity. Qed.

Lemma last_cons {A} (a d : A) l : last (a :: l) d = last l a.
Proof.
  revert a d. induction l as [|b l IH]; intros a d; [reflexivity|].
  change (last (a :: b :: l) d) with (last (b :: l) d).
  now rewrite (IH b d), (IH b a).
Qed.

Lemma waitEvents_handlerEvents url p m :
  handlerEvents (waitEvents url p m) = [Sleep 2000; FetchStatus url].
Proof.
  unfold waitEvents.
  change (Sleep pollDelayMs :: ?l) with ([Sleep 2000] ++ l).
  rewrite handlerEvents_app, handlerEvents_app, ticks_handlerEvents.
  change (FetchStatus url :: ?l) with ([FetchStatus url] ++ l).
  rewrite handlerEvents_app, ticks_handlerEvents. reflexivity.
Qed.

Lemma afterWait_prediction p m : prediction (afterWait p m) = prediction m.
Proof.
  unfold afterWait.
  destruct (ticks_frame (ticksSleep p) m) as (_ & _ & A & _).
  destruct (ticks_frame (ticksFetch p) (finalOf (ticks (ticksSleep p) m)))
    as (_ & _ & B & _).
  congruence.
Qed.

(** The loop, fed Jobs over HTTP 200, does what the specification says,
    iteration by iteration, and never throws. *)
Lemma pollLoop_jobs xs : forall url c m,
  let r := pollLoop url (JRecord c) (map jobPoll xs) m in
  let jobs := consumedJobs (status c) (map jobOf xs) in
  handlerEvents (traceOf r) = flat_map (iterationEvents url) jobs /\
  rejected (completionOf r) = false /\
  prediction (finalOf r) = last (map JRecord jobs) (prediction m).
Proof.
  induction xs as [|[[a b] j] xs IH]; intros url c m; cbv zeta.
  - simpl map. simpl consumedJobs.
    destruct (terminal (status c)) eqn:T.
    + rewrite (pollLoop_done url c [] m T). now repeat split.
    + rewrite pollLoop_empty by (simpl; now rewrite T). now repeat split.
  - change (map jobPoll ((a, b, j) :: xs))
      with (mkPoll a b (Response 200 (BodyJson (JRecord j)))
            :: map jobPoll xs).
    change (map jobOf ((a, b, j) :: xs)) with (j :: map jobOf xs).
    rewrite consumedJobs_cons.
    destruct (terminal (status c)) eqn:T.
    + rewrite (pollLoop_done url c _ m T). now repeat split.
    + rewrite pollLoop_wait by (simpl; now rewrite T).
      set (p := mkPoll a b (Response 200 (BodyJson (JRecord j)))).
      change (result p) with (Response 200 (BodyJson (JRecord j))). cbv iota.
      rewrite traceOf_prepend, completionOf_prepend, finalOf_prepend.
      rewrite handlerEvents_app, waitEvents_handlerEvents.
      destruct (isStatus "succeeded" (status j)) eqn:S.
      * pose proof (isStatus_true _ _ S) as Hs.
        rewrite (onBody_succeeded url j _ _ Hs).
        rewrite consumedJobs_terminal by (rewrite Hs; reflexivity).
        simpl flat_map. unfold iterationEvents. rewrite S.
        now repeat split.
      * rewrite (onBody_not_succeeded url j _ _ S).
        rewrite traceOf_prepend, completionOf_prepend, finalOf_prepend.
        destruct (IH url j (withPrediction (JRecord j) (afterWait p m)))
          as (I1 & I2 & I3).
        rewrite handlerEvents_app, I1, I2, I3.
        simpl flat_map. unfold iterationEvents at 2. rewrite S.
        split; [reflexivity|]. split; [reflexivity|].
        simpl map. now rewrite last_cons.
Qed.

Lemma statusFetches_handlerEvents t :
  statusFetches (handlerEvents t) = statusFetches t.
Proof.
  unfold statusFetches, handlerEvents.
  induction t as [|e t IH]; [reflexivity|].
  destruct e; simpl; try (f_equal; exact IH); exact IH.
Qed.

Lemma statusFetches_iterations url jobs :
  statusFetches (flat_map (iterationEvents url) jobs) = length jobs.
Proof.
  unfold statusFetches.
  induction jobs as [|j jobs IH]; [reflexivity|].
  change (flat_map (iterationEvents url) (j :: jobs))
    with (iterationEvents url j ++ flat_map (iterationEvents url) jobs).
  rewrite filter_app, length_app, IH.
  unfold iterationEvents.
  destruct (isStatus "succeeded" (status j)); reflexivity.
Qed.

(** In the list of consumed Jobs, a Job followed by another one is not
    terminal: the first terminal Job is the last one fetched. *)
Lemma consumedJobs_stop jobs : forall s pre j post,
  consumedJobs s jobs = pre ++ j :: post ->
  post <> [] -> terminal (status j) = false.
Proof.
  induction jobs as [|x jobs IH]; intros s pre j post E N.
  - destruct pre; discriminate.
  - simpl in E. destruct (terminal s); [destruct pre; discriminate|].
    destruct pre as [|y pre]; simpl in E; injection E as E1 E2.
    + subst x. destruct (terminal (status j)) eqn:T; [|reflexivity].
      rewrite (consumedJobs_terminal _ jobs T) in E2. congruence.
    + exact (IH _ _ _ _ E2 N).
Qed.

Lemma last_JRecord l c :
  last (map JRecord l) (JRecord c) = JRecord (last l c).
Proof.
  induction l as [|x l IH]; [reflexivity|].
  destruct l as [|y l]; [reflexivity|]. exact IH.
Qed.

Lemma catchResult_not_rejected {A} (h : Exn -> M A) r :
  rejected (completionOf r) = false -> catchResult h r = r.
Proof.
  destruct r as [[m t] c]. unfold catchResult. simpl.
  destruct c; simpl; intros H; congruence.
Qed.

(** C5.  After an accepted submission, and as long as the polls are answered
    with HTTP 200 and a Job, the handler's own events are exactly: the
    submission prologue, then for each poll, in this order, a 2000 ms delay,
    the status fetch, and the publication of the fetched Job in the store
    (followed on [succeeded] by the cleanup), and only then the next
    iteration.  The polls made are those the specification's loop condition
    allows: none when the stored status is already terminal, and none after
    the first terminal Job, so every fetched Job that is followed by another
    fetch is non-terminal and was published before it.  The store ends
    holding the last Job fetched. *)
Theorem C5_each_iteration_waits_fetches_publishes :
  forall c xs m,
    validMessage (message m) = true ->
    let url := predictionsIdUrl (JRecord c) in
    let jobs := consumedJobs (status c) (map jobOf xs) in
    let r := handleButtonClick (Response 201 (BodyJson (JRecord c)))
                               (map jobPoll xs) m in
    handlerEvents (traceOf r) =
      [SetError None; SetPredictionOn true; FetchCreate (promptOf m);
       SetPrediction (JRecord c); SetProgress 0; SetInterval 750] ++
      flat_map (iterationEvents url) jobs /\
    prediction (finalOf r) = JRecord (last jobs c) /\
    statusFetches (traceOf r) = length jobs /\
    (terminal (status c) = true -> jobs = []) /\
    (forall pre j post,
       jobs = pre ++ j :: post -> post <> [] -> terminal (status j) = false).
Proof.
  intros c xs m Hv. cbv zeta.
  rewrite (handle_valid _ _ m Hv).
  rewrite (tryBody_created _ (JRecord c) _ _ eq_refl).
  destruct (pollLoop_jobs xs (predictionsIdUrl (JRecord c)) c
              (started (JRecord c) (submitted m))) as (H1 & H2 & H3).
  rewrite catchResult_prepend, prepend_prepend.
  rewrite catchResult_not_rejected by exact H2.
  rewrite traceOf_prepend, finalOf_prepend.
  assert (E : handlerEvents
           (([SetError None; SetPredictionOn true] ++
             [FetchCreate (promptOf m); SetPrediction (JRecord c);
              SetProgress 0; SetInterval progressIntervalMs]) ++
            traceOf (pollLoop (predictionsIdUrl (JRecord c)) (JRecord c)
                       (map jobPoll xs) (started (JRecord c) (submitted m)))) =
           [SetError None; SetPredictionOn true; FetchCreate (promptOf m);
            SetPrediction (JRecord c); SetProgress 0; SetInterval 750] ++
           flat_map (iterationEvents (predictionsIdUrl (JRecord c)))
             (consumedJobs (status c) (map jobOf xs))).
  { rewrite handlerEvents_app, H1. reflexivity. }
  split; [exact E|]. split; [|split; [|split]].
  - rewrite H3. apply last_JRecord.
  - rewrite <- statusFetches_handlerEvents, E.
    unfold statusFetches. rewrite filter_app, length_app.
    fold (statusFetches (flat_map (iterationEvents
                                     (predictionsIdUrl (JRecord c)))
                           (consumedJobs (status c) (map jobOf xs)))).
    rewrite statusFetches_iterations. reflexivity.
  - intros T. now apply consumedJobs_terminal.
  - intros pre j post. apply consumedJobs_stop.
Qed.

Lemma C5_iteration_witness :
  let m := handleInputChange "tiger" initialMachine in
  let job out s := mkPrediction (Some out) (Some s) (Some "j1") None in
  let r := handleButtonClick
             (Response 201 (BodyJson (JRecord (job [] "starting"))))
             (map jobPoll [(2, 1, job ["a.png"] "processing");
                           (3, 0, job ["a.png"; "b.png"] "succeeded");
                           (3, 0, job ["a.png"; "b.png"] "succeeded")]) m in
  handlerEvents (traceOf r) =
    [SetError None; SetPredictionOn true;
     FetchCreate "in the style of TOK,tiger as a tattoo";
     SetPrediction (JRecord (job [] "starting"));
     SetProgress 0; SetInterval 750;
     Sleep 2000; FetchStatus "/api/predictionState/j1";
     SetPrediction (JRecord (job ["a.png"] "processing"));
     Sleep 2000; FetchStatus "/api/predictionState/j1";
     SetPrediction (JRecord (job ["a.png"; "b.png"] "succeeded"));
     ClearInterval; SetProgress 100; SetPredictionOn false] /\
  statusFetches (traceOf r) = 2.
Proof.
  cbv zeta.
  destruct (C5_each_iteration_waits_fetches_publishes
              (mkPrediction (Some []) (Some "starting") (Some "j1") None)
              [(2, 1, mkPrediction (Some ["a.png"]) (Some "processing")
                                   (Some "j1") None);
               (3, 0, mkPrediction (Some ["a.png"; "b.png"])
                                   (Some "succeeded") (Some "j1") None);
               (3, 0, mkPrediction (Some ["a.png"; "b.png"])
                                   (Some "succeeded") (Some "j1") None)]
              (handleInputChange "tiger" initialMachine) eq_refl)
    as (H1 & _ & H3 & _).
  split; [exact H1|exact H3].
Defined.

(** ** The synthesized progress value (lines 133-141) *)

Lemma progressWrites_app t1 t2 :
  progressWrites (t1 ++ t2) = progressWrites t1 ++ progressWrites t2.
Proof. apply flat_map_app. Qed.

Lemma tick_fire m :
  intervalActive m = true -> progressValue m <= 100 ->
  tick m =
  (mkMachine (message m) (progressValue m) (predictionOn m) (prediction m)
             (error m) (S (progressValue m)) true,
   [TimerFired (Some (progressValue m))], Normal tt).
Proof.
  intros A L. unfold tick. rewrite A.
  apply Nat.leb_le in L. now rewrite L.
Qed.

Lemma tick_expire m :
  intervalActive m = true -> 100 < progressValue m ->
  tick m =
  (mkMachine (message m) (progress m) (predictionOn m) (prediction m)
             (error m) (progressValue m) false,
   [TimerFired None], Normal tt).
Proof.
  intros A L. unfold tick. rewrite A.
  apply Nat.leb_gt in L. now rewrite L.
Qed.

Lemma ticks_succ n m m1 t1 :
  tick m = (m1, t1, Normal tt) ->
  ticks (S n) m = prepend t1 (ticks n m1).
Proof. intros H. exact (bind_normal tick (fun _ => ticks n) m m1 t1 tt H). Qed.

(** What [n] firings write, from a counter at most 101: a run of consecutive
    values starting at the counter, which stops at 100. *)
Lemma ticks_writes n : forall m,
  progressValue m <= 101 ->
  exists k,
    progressWrites (traceOf (ticks n m)) = seq (progressValue m) k /\
    progressValue (finalOf (ticks n m)) = progressValue m + k /\
    progressValue m + k <= 101.
Proof.
  induction n as [|n IH]; intros m L.
  - exists 0. repeat split; cbn; first [reflexivity | lia].
  - destruct (intervalActive m) eqn:A.
    + destruct (Nat.le_gt_cases (progressValue m) 100) as [L1|L1].
      * rewrite (ticks_succ n m _ _ (tick_fire m A L1)).
        rewrite traceOf_prepend, finalOf_prepend, progressWrites_app.
        match goal with
        | |- context [ticks n ?x] =>
            destruct (IH x) as (k & W & V & B); [simpl; lia|]
        end.
        cbn [progressValue] in W, V, B.
        exists (S k). rewrite W, V. repeat split; cbn; first [reflexivity | lia].
      * rewrite (ticks_succ n m _ _ (tick_expire m A L1)).
        rewrite ticks_inactive by reflexivity.
        exists 0. repeat split; cbn; first [reflexivity | lia].
    + rewrite (ticks_inactive (S n) m A).
      exists 0. repeat split; cbn; first [reflexivity | lia].
Qed.

(** The writes of the callback depend on its own two locals only. *)
Lemma ticks_congr n : forall m m2,
  progressValue m = progressValue m2 ->
  intervalActive m = intervalActive m2 ->
  progressWrites (traceOf (ticks n m)) =
  progressWrites (traceOf (ticks n m2)).
Proof.
  induction n as [|n IH]; intros m m2 V A; [reflexivity|].
  destruct (intervalActive m) eqn:Am; symmetry in A.
  - destruct (Nat.le_gt_cases (progressValue m) 100) as [L|L].
    + rewrite (ticks_succ n m _ _ (tick_fire m Am L)).
      assert (L2 : progressValue m2 <= 100) by lia.
      rewrite (ticks_succ n m2 _ _ (tick_fire m2 A L2)).
      rewrite !traceOf_prepend, !progressWrites_app, V.
      f_equal. apply IH; simpl; congruence.
    + rewrite (ticks_succ n m _ _ (tick_expire m Am L)).
      assert (L2 : 100 < progressValue m2) by lia.
      rewrite (ticks_succ n m2 _ _ (tick_expire m2 A L2)).
      rewrite !traceOf_prepend, !progressWrites_app.
      f_equal. apply IH; simpl; congruence.
  - now rewrite (ticks_inactive (S n) m Am), (ticks_inactive (S n) m2 A).
Qed.

(** Started at 0 with the counter one ahead, progress after [i] firings is
    [min i 100] ahead of where it was, never beyond 100. *)
Lemma ticks_progress i : forall m,
  intervalActive m = true ->
  progressValue m = S (progress m) ->
  progress m <= 100 ->
  progress (finalOf (ticks i m)) = Nat.min (progress m + i) 100.
Proof.
  induction i as [|i IH]; intros m A V L.
  - change (finalOf (ticks 0 m)) with m. lia.
  - destruct (Nat.le_gt_cases (progressValue m) 100) as [L1|L1].
    + rewrite (ticks_succ i m _ _ (tick_fire m A L1)), finalOf_prepend.
      rewrite IH; cbn [progress progressValue intervalActive]; lia.
    + rewrite (ticks_succ i m _ _ (tick_expire m A L1)), finalOf_prepend.
      rewrite ticks_inactive by reflexivity.
      unfold finalOf. cbn [fst progress]. lia.
Qed.

Lemma writesFrom_prepend v k n t r :
  progressWrites t = seq v k ->
  writesFrom (v + k) n r -> writesFrom v n (prepend t r).
Proof.
  intros Ht (k' & b & W & B).
  exists (k + k'), b.
  rewrite traceOf_prepend, finalOf_prepend, progressWrites_app.
  rewrite <- app_assoc, W, Ht, seq_app, <- app_assoc.
  split; [reflexivity|lia].
Qed.

Lemma writesFrom_stop n m1 t c :
  progressWrites t = [] -> progressValue m1 <= 101 ->
  writesFrom (progressValue m1) n (m1, t, c).
Proof.
  intros Ht L. destruct (ticks_writes n m1 L) as (k & W & _ & B).
  exists k, false. unfold traceOf at 1, finalOf. simpl fst. simpl snd.
  rewrite Ht, W, app_nil_r. split; [reflexivity|exact B].
Qed.

Lemma wait_writes url p m :
  progressValue m <= 101 ->
  exists k,
    progressWrites (waitEvents url p m) = seq (progressValue m) k /\
    progressValue (afterWait p m) = progressValue m + k /\
    progressValue m + k <= 101.
Proof.
  intros L. unfold waitEvents, afterWait.
  destruct (ticks_writes (ticksSleep p) m L) as (k1 & W1 & V1 & B1).
  destruct (ticks_writes (ticksFetch p) (finalOf (ticks (ticksSleep p) m)))
    as (k2 & W2 & V2 & B2); [lia|].
  exists (k1 + k2).
  change (Sleep pollDelayMs :: ?l) with ([Sleep pollDelayMs] ++ l).
  rewrite progressWrites_app, progressWrites_app, W1.
  change (FetchStatus url :: ?l) with ([FetchStatus url] ++ l).
  rewrite progressWrites_app, W2, V1, V2, seq_app. simpl.
  repeat split; lia.
Qed.

(** The three ways the loop body can treat a parsed response: stop without
    touching progress or the interval; succeed; or publish and loop. *)
Lemma onBody_cases url code j rest m :
  (exists m1 t c,
     onBody url code j rest m = (m1, t, c) /\
     progressWrites t = [] /\ progressValue m1 = progressValue m) \/
  (exists c,
     onBody url code j rest m =
     (mkMachine (message m) 100 false (JRecord c) (error m)
                (progressValue m) false,
      [SetPrediction (JRecord c); ClearInterval; SetProgress 100;
       SetPredictionOn false],
      Normal tt)) \/
  onBody url code j rest m =
    prepend [SetPrediction j] (pollLoop url j rest (withPrediction j m)).
Proof.
  destruct (Nat.eqb code 200) eqn:C.
  - apply Nat.eqb_eq in C. subst code.
    destruct j as [| |c].
    + left. exists (withPrediction JNull m), [SetPrediction JNull],
                   (Thrown (NullDeref "status")).
      now repeat split.
    + right. right. now apply onBody_continue.
    + destruct (isStatus "succeeded" (status c)) eqn:S.
      * right. left. exists c.
        apply onBody_succeeded. now apply isStatus_true.
      * right. right. now apply onBody_not_succeeded.
  - left. unfold onBody. rewrite C. cbn [negb].
    destruct j as [| |c].
    + exists m, [], (Thrown (NullDeref "detail")). now repeat split.
    + exists (withError None m), [SetError None], Returned.
      now repeat split.
    + exists (withError (detail c) m), [SetError (detail c)], Returned.
      now repeat split.
Qed.

Lemma pollLoop_stops url cur polls m :
  nonterminal cur = false \/ polls = [] ->
  exists c, pollLoop url cur polls m = (m, [], c).
Proof.
  intros H. destruct (nonterminal cur) eqn:N.
  - destruct H as [H|H]; [discriminate|]. subst polls.
    eexists. now apply pollLoop_empty.
  - destruct cur as [| |c]; try discriminate.
    + eexists. apply pollLoop_null.
    + eexists. apply pollLoop_done. simpl in N.
      now apply negb_false_iff in N.
Qed.

(** Whatever the script, the loop and the firings that follow it write to
    progress a run of consecutive values, possibly closed by the forced 100. *)
Lemma pollLoop_writes polls : forall url cur m n,
  progressValue m <= 101 ->
  writesFrom (progressValue m) n (pollLoop url cur polls m).
Proof.
  induction polls as [|p rest IH]; intros url cur m n L.
  - destruct (pollLoop_stops url cur [] m (or_intror eq_refl)) as (c & E).
    rewrite E. now apply writesFrom_stop.
  - destruct (nonterminal cur) eqn:N.
    + rewrite (pollLoop_wait url cur p rest m N).
      destruct (wait_writes url p m L) as (k & W & V & B).
      apply (writesFrom_prepend _ k _ _ _ W). rewrite <- V.
      assert (L' : progressValue (afterWait p m) <= 101) by lia.
      destruct (result p) as [|code [|j]].
      * now apply writesFrom_stop.
      * now apply writesFrom_stop.
      * destruct (onBody_cases url code j rest (afterWait p m))
          as [(m1 & t & c & E & Ht & Hv)|[(c & E)|E]]; rewrite E.
        -- rewrite <- Hv. apply writesFrom_stop; [exact Ht|lia].
        -- exists 0, true. unfold traceOf at 1, finalOf.
           cbn [fst snd]. rewrite ticks_inactive by reflexivity.
           split; [reflexivity|lia].
        -- apply (writesFrom_prepend _ 0 _ [SetPrediction j] _ eq_refl).
           rewrite Nat.add_0_r.
           apply (IH url j (withPrediction j (afterWait p m)) n L').
    + destruct (pollLoop_stops url cur (p :: rest) m (or_introl N)) as (c & E).
      rewrite E. now apply writesFrom_stop.
Qed.

Lemma writesFrom_catch v n r :
  writesFrom v n r -> writesFrom v n (catchResult catchBlock r).
Proof.
  destruct r as [[m t] c]. intros (k & b & W & B).
  destruct c; try (exists k, b; split; assumption).
  exists k, b. split; [|exact B].
  unfold catchResult, completionOf. cbn [snd].
  rewrite catchBlock_eq, traceOf_prepend, finalOf_prepend.
  unfold traceOf at 1 2, finalOf at 1. cbn [fst snd].
  rewrite progressWrites_app. cbn [progressWrites flat_map progressWrite app].
  rewrite app_nil_r.
  change (finalOf (withPredictionOn false (finalOf (m, t, Thrown e)),
                   [SetPredictionOn false; ConsoleLog e], Normal tt))
    with (withPredictionOn false m).
  rewrite (ticks_congr n (withPredictionOn false m) m eq_refl eq_refl).
  exact W.
Qed.

(** A run of consecutive values up to 100, possibly closed by 100, is
    non-decreasing and bounded by 100. *)
Lemma run_bounded k : forall v b,
  v + k <= 101 ->
  Forall (fun x => x <= 100) (seq v k ++ (if b : bool then [100] else [])).
Proof.
  intros v b L. apply Forall_app. split.
  - apply Forall_forall. intros x Hx. apply in_seq in Hx. lia.
  - destruct b; repeat constructor.
Qed.

Lemma run_sorted k : forall v b,
  v + k <= 101 ->
  StronglySorted le (seq v k ++ (if b : bool then [100] else [])).
Proof.
  induction k as [|k IH]; intros v b L.
  - destruct b; repeat constructor.
  - cbn [seq app]. constructor.
    + apply IH. lia.
    + apply Forall_app. split.
      * apply Forall_forall. intros x Hx. apply in_seq in Hx. lia.
      * destruct b; [|constructor].
        apply Forall_cons; [lia|constructor].
Qed.



(** * Further properties of the handler *)

(** ** Requests issued by one click *)

Lemma statusUrls_app t1 t2 :
  statusUrls (t1 ++ t2) = statusUrls t1 ++ statusUrls t2.
Proof. apply flat_map_app. Qed.

Lemma createPrompts_app t1 t2 :
  createPrompts (t1 ++ t2) = createPrompts t1 ++ createPrompts t2.
Proof. apply flat_map_app. Qed.

Lemma statusUrls_handlerEvents t :
  statusUrls (handlerEvents t) = statusUrls t.
Proof.
  unfold statusUrls, handlerEvents.
  induction t as [|e t IH]; [reflexivity|].
  destruct e; simpl; try (f_equal; exact IH); exact IH.
Qed.

Lemma createPrompts_handlerEvents t :
  createPrompts (handlerEvents t) = createPrompts t.
Proof.
  unfold createPrompts, handlerEvents.
  induction t as [|e t IH]; [reflexivity|].
  destruct e; simpl; try (f_equal; exact IH); exact IH.
Qed.

Lemma waitEvents_statusUrls url p m : statusUrls (waitEvents url p m) = [url].
Proof.
  now rewrite <- statusUrls_handlerEvents, waitEvents_handlerEvents.
Qed.

Lemma waitEvents_createPrompts url p m :
  createPrompts (waitEvents url p m) = [].
Proof.
  now rewrite <- createPrompts_handlerEvents, waitEvents_handlerEvents.
Qed.

(** The loop body either ends the loop, with no request and not parked, or
    publishes the body and loops. *)
Lemma onBody_split url code j rest m :
  (exists m1 t c,
     onBody url code j rest m = (m1, t, c) /\ c <> Suspended /\
     statusUrls t = [] /\ createPrompts t = []) \/
  onBody url code j rest m =
    prepend [SetPrediction j] (pollLoop url j rest (withPrediction j m)).
Proof.
  destruct (Nat.eqb code 200) eqn:C.
  - apply Nat.eqb_eq in C. subst code.
    destruct j as [| |c].
    + left. exists (withPrediction JNull m), [SetPrediction JNull],
                   (Thrown (NullDeref "status")).
      repeat split. discriminate.
    + right. now apply onBody_continue.
    + destruct (isStatus "succeeded" (status c)) eqn:S.
      * left. apply isStatus_true in S.
        rewrite (onBody_succeeded url c rest m S).
        do 3 eexists. repeat split. discriminate.
      * right. now apply onBody_not_succeeded.
  - left. unfold onBody. rewrite C. cbn [negb].
    destruct j as [| |c].
    + exists m, [], (Thrown (NullDeref "detail")). repeat split. discriminate.
    + exists (withError None m), [SetError None], Returned.
      repeat split. discriminate.
    + exists (withError (detail c) m), [SetError (detail c)], Returned.
      repeat split. discriminate.
Qed.

(** Every status fetch of the loop goes to the loop's address, and there is
    at most one per scripted poll. *)
Lemma pollLoop_requests polls : forall url cur m,
  createPrompts (traceOf (pollLoop url cur polls m)) = [] /\
  exists k, k <= length polls /\
            statusUrls (traceOf (pollLoop url cur polls m)) = repeat url k.
Proof.
  induction polls as [|p rest IH]; intros url cur m.
  - destruct (pollLoop_stops url cur [] m (or_intror eq_refl)) as (c & E).
    rewrite E. split; [reflexivity|]. exists 0. now split.
  - destruct (nonterminal cur) eqn:N.
    + rewrite (pollLoop_wait url cur p rest m N).
      rewrite traceOf_prepend, createPrompts_app, statusUrls_app.
      rewrite waitEvents_createPrompts, waitEvents_statusUrls.
      destruct (result p) as [|code [|j]].
      * split; [reflexivity|]. exists 1. simpl. split; [lia|reflexivity].
      * split; [reflexivity|]. exists 1. simpl. split; [lia|reflexivity].
      * destruct (onBody_split url code j rest (afterWait p m))
          as [(m1 & t & c & E & _ & Hs & Hc)|E]; rewrite E.
        -- unfold traceOf. cbn [fst snd]. rewrite Hs, Hc.
           split; [reflexivity|]. exists 1. simpl. split; [lia|reflexivity].
        -- destruct (IH url j (withPrediction j (afterWait p m)))
             as (Hc & k & Hk & Hs).
           rewrite traceOf_prepend, createPrompts_app, statusUrls_app, Hc, Hs.
           split; [reflexivity|]. exists (S k). simpl. split; [lia|reflexivity].
    + destruct (pollLoop_stops url cur (p :: rest) m (or_introl N)) as (c & E).
      rewrite E. split; [reflexivity|]. exists 0. simpl. split; [lia|reflexivity].
Qed.

(** Closes the side conditions of a run that ends without polling. *)
Ltac not_in_trace :=
  let H := fresh "H" in
  intros H; simpl in H;
  repeat (destruct H as [H|H]; [discriminate|]); destruct H.

Ltac stop_case := repeat split; [discriminate | not_in_trace].

(** The [try] block either ends before any poll, having sent the creation
    request only, or enters the polling loop on a 201 with a truthy body. *)
Lemma tryBody_cases prompt create polls m :
  (exists m1 t c,
     tryBody prompt create polls m = (m1, FetchCreate prompt :: t, c) /\
     c <> Suspended /\ statusUrls t = [] /\ createPrompts t = [] /\
     ~ In ClearInterval t) \/
  (exists j,
     create = Response 201 (BodyJson j) /\ truthy j = true /\
     tryBody prompt create polls m =
     prepend [FetchCreate prompt; SetPrediction j; SetProgress 0;
              SetInterval progressIntervalMs]
       (pollLoop (predictionsIdUrl j) j polls (started j m))).
Proof.
  destruct create as [|code body].
  - left. exists m, [], (Thrown FetchFailed). stop_case.
  - destruct (Nat.eqb code 201) eqn:C.
    + apply Nat.eqb_eq in C. subst code.
      destruct body as [|j].
      * left. exists m, [], (Thrown ParseFailed). stop_case.
      * destruct (truthy j) eqn:T.
        -- right. exists j. repeat split; [exact T|].
           now apply tryBody_created.
        -- left. exists (withPredictionOn false (withPrediction JNull m)),
                        [SetPrediction JNull; SetPredictionOn false],
                        (Normal tt).
           split; [|stop_case].
           unfold tryBody. rewrite bind_emit.
           change (negb (ok 201)) with false. cbv iota. rewrite bind_ret.
           change (negb (Nat.eqb 201 201)) with false. cbv iota. rewrite T.
           reflexivity.
    + left. unfold tryBody. rewrite bind_emit.
      destruct (ok code) eqn:O; cbn [negb].
      * rewrite bind_ret.
        destruct body as [|j].
        -- exists m, [], (Thrown ParseFailed). stop_case.
        -- rewrite C. cbn [negb].
           destruct j as [| |c].
           ++ exists m, [], (Thrown (NullDeref "detail")).
              stop_case.
           ++ exists (withPredictionOn false (withError None m)),
                     [SetError None; SetPredictionOn false], Returned.
              stop_case.
           ++ exists (withPredictionOn false (withError (detail c) m)),
                     [SetError (detail c); SetPredictionOn false], Returned.
              stop_case.
      * destruct (Nat.eqb code 429) eqn:R.
        -- rewrite (bind_normal _ _ m
                      (withPredictionOn false (withError (Some msgRateLimit) m))
                      [SetError (Some msgRateLimit); SetPredictionOn false] tt
                      eq_refl).
           destruct body as [|j].
           ++ do 3 eexists. split; [reflexivity|stop_case].
           ++ rewrite C. cbn [negb].
              destruct j as [| |c].
              ** do 3 eexists. split; [reflexivity|stop_case].
              ** do 3 eexists. split; [reflexivity|stop_case].
              ** do 3 eexists. split; [reflexivity|stop_case].
        -- exists m, [], (Thrown (HttpError code)). stop_case.
Qed.

Lemma catchResult_requests r :
  statusUrls (traceOf (catchResult catchBlock r)) = statusUrls (traceOf r) /\
  createPrompts (traceOf (catchResult catchBlock r)) =
    createPrompts (traceOf r).
Proof.
  destruct r as [[m t] c]. unfold catchResult, completionOf. cbn [snd].
  destruct c; try (split; reflexivity).
  rewrite catchBlock_eq, traceOf_prepend, statusUrls_app, createPrompts_app.
  unfold traceOf. cbn [fst snd]. cbn [statusUrls createPrompts flat_map
    statusUrl createPrompt app].
  now rewrite !app_nil_r.
Qed.

(** X1.  The promise of [handleButtonClick] is never rejected, whatever the
    prompt, the creation response and the poll responses are.  When the [try]
    block throws (a failed fetch, an unparsable body, the handler's own
    [HTTP error!], or a [TypeError] on a [null] body), the handler finishes
    normally with the in-flight flag false, the user-visible error as the
    block left it, and the exception as the last thing written to the
    console. *)
Theorem X1_handler_never_rejects :
  forall create polls m,
    let r := handleButtonClick create polls m in
    let b := tryBody (promptOf m) create polls (submitted m) in
    rejected (completionOf r) = false /\
    (forall e,
       validMessage (message m) = true ->
       completionOf b = Thrown e ->
       completionOf r = Normal tt /\
       predictionOn (finalOf r) = false /\
       error (finalOf r) = error (finalOf b) /\
       traceOf r =
         [SetError None; SetPredictionOn true] ++ traceOf b ++
         [SetPredictionOn false; ConsoleLog e]).
Proof.
  intros create polls m. cbv zeta.
  split; [apply handle_never_rejects|].
  intros e Hv Hb. rewrite (handle_valid create polls m Hv).
  destruct (tryBody (promptOf m) create polls (submitted m))
    as [[m1 t1] c1].
  simpl in Hb. subst c1.
  repeat split.
Qed.

Lemma X1_never_rejects_witness :
  let m := handleInputChange "tiger" initialMachine in
  let r := handleButtonClick (Response 200 (BodyJson JNull)) [] m in
  completionOf r = Normal tt /\
  predictionOn (finalOf r) = false /\
  traceOf r =
    [SetError None; SetPredictionOn true] ++
    [FetchCreate "in the style of TOK,tiger as a tattoo"] ++
    [SetPredictionOn false; ConsoleLog (NullDeref "detail")].
Proof.
  cbv zeta.
  destruct (X1_handler_never_rejects (Response 200 (BodyJson JNull)) []
              (handleInputChange "tiger" initialMachine))
    as (_ & H).
  destruct (H (NullDeref "detail") eq_refl eq_refl) as (H1 & H2 & _ & H4).
  split; [exact H1|]. split; [exact H2|exact H4].
Defined.

(** X2.  For a valid prompt, one click sends exactly one creation request,
    carrying ['in the style of TOK,' + message + ' as a tattoo'].  Status
    fetches are sent only after a 201 response with a truthy body, all of
    them to ["/api/predictionState/" + id] of that body, and never more of
    them than poll responses were received. *)
Theorem X2_one_creation_request_and_one_poll_address :
  forall create polls m,
    validMessage (message m) = true ->
    let r := handleButtonClick create polls m in
    createPrompts (traceOf r) =
      [("in the style of TOK," ++ message m ++ " as a tattoo")%string] /\
    length (statusUrls (traceOf r)) <= length polls /\
    (forall u, In u (statusUrls (traceOf r)) ->
       exists j, create = Response 201 (BodyJson j) /\ truthy j = true /\
                 u = predictionsIdUrl j).
Proof.
  intros create polls m Hv. cbv zeta.
  rewrite (handle_valid create polls m Hv), traceOf_prepend.
  rewrite createPrompts_app, statusUrls_app.
  destruct (catchResult_requests
              (tryBody (promptOf m) create polls (submitted m))) as (Es & Ec).
  rewrite Es, Ec.
  destruct (tryBody_cases (promptOf m) create polls (submitted m))
    as [(m1 & t & c & E & _ & Hs & Hc & _)|(j & Ej & Tj & E)]; rewrite E.
  - unfold traceOf. cbn [fst snd].
    change (FetchCreate (promptOf m) :: t)
      with ([FetchCreate (promptOf m)] ++ t).
    rewrite createPrompts_app, statusUrls_app, Hs, Hc.
    split; [reflexivity|]. split; [simpl; lia|].
    intros u [].
  - destruct (pollLoop_requests polls (predictionsIdUrl j) j
                (started j (submitted m))) as (Hc & k & Hk & Hs).
    rewrite traceOf_prepend, createPrompts_app, statusUrls_app, Hc, Hs.
    split; [reflexivity|]. split.
    + simpl. rewrite repeat_length. exact Hk.
    + intros u Hu. simpl in Hu. apply repeat_spec in Hu.
      exists j. now repeat split.
Qed.

Lemma X2_requests_witness :
  let m := handleInputChange "tiger" initialMachine in
  let job s := JRecord (mkPrediction (Some []) (Some s) (Some "j1") None) in
  let r := handleButtonClick (Response 201 (BodyJson (job "starting")))
             [mkPoll 2 1 (Response 200 (BodyJson (job "processing")));
              mkPoll 3 0 (Response 500 (BodyJson (job "processing")));
              mkPoll 3 0 (Response 200 (BodyJson (job "succeeded")))] m in
  createPrompts (traceOf r) = ["in the style of TOK,tiger as a tattoo"] /\
  length (statusUrls (traceOf r)) <= 3.
Proof.
  cbv zeta.
  destruct (X2_one_creation_request_and_one_poll_address
              (Response 201 (BodyJson (JRecord
                 (mkPrediction (Some []) (Some "starting") (Some "j1") None))))
              [mkPoll 2 1 (Response 200 (BodyJson (JRecord
                 (mkPrediction (Some []) (Some "processing") (Some "j1")
                               None))));
               mkPoll 3 0 (Response 500 (BodyJson (JRecord
                 (mkPrediction (Some []) (Some "processing") (Some "j1")
                               None))));
               mkPoll 3 0 (Response 200 (BodyJson (JRecord
                 (mkPrediction (Some []) (Some "succeeded") (Some "j1")
                               None))))]
              (handleInputChange "tiger" initialMachine) eq_refl)
    as (H1 & H2 & _).
  split; [exact H1|exact H2].
Defined.

(** ** A handler that is still waiting *)

Lemma afterWait_error p m : error (afterWait p m) = error m.
Proof.
  unfold afterWait.
  destruct (ticks_frame (ticksSleep p) m) as (_ & _ & _ & A).
  destruct (ticks_frame (ticksFetch p) (finalOf (ticks (ticksSleep p) m)))
    as (_ & _ & _ & B).
  congruence.
Qed.

(** A loop that is parked has used up every scripted poll and has touched
    neither the in-flight flag nor the error. *)
Lemma pollLoop_suspended polls : forall url cur m,
  completionOf (pollLoop url cur polls m) = Suspended ->
  nonterminal cur = true /\
  statusUrls (traceOf (pollLoop url cur polls m)) =
    repeat url (length polls) /\
  predictionOn (finalOf (pollLoop url cur polls m)) = predictionOn m /\
  error (finalOf (pollLoop url cur polls m)) = error m.
Proof.
  induction polls as [|p rest IH]; intros url cur m H.
  - destruct (nonterminal cur) eqn:N.
    + rewrite (pollLoop_empty url cur m N). now repeat split.
    + destruct cur as [| |c]; try discriminate.
      simpl in N. apply negb_false_iff in N.
      rewrite (pollLoop_done url c [] m N) in H. discriminate.
  - destruct (nonterminal cur) eqn:N.
    + rewrite (pollLoop_wait url cur p rest m N) in H |- *.
      rewrite completionOf_prepend in H.
      rewrite traceOf_prepend, finalOf_prepend, statusUrls_app.
      rewrite waitEvents_statusUrls.
      destruct (result p) as [|code [|j]]; try discriminate.
      destruct (onBody_split url code j rest (afterWait p m))
        as [(m1 & t & c & E & Hc & _)|E]; rewrite E in H |- *.
      * simpl in H. congruence.
      * rewrite completionOf_prepend in H.
        destruct (IH url j (withPrediction j (afterWait p m)) H)
          as (_ & Hs & Ho & He).
        rewrite traceOf_prepend, finalOf_prepend, statusUrls_app, Hs, Ho, He.
        split; [reflexivity|]. split; [reflexivity|].
        split; [apply afterWait_predictionOn|apply afterWait_error].
    + destruct (pollLoop_stops url cur (p :: rest) m (or_introl N)) as (c & E).
      rewrite E in H. simpl in H. subst c.
      destruct cur as [| |c']; try discriminate.
      simpl in N. apply negb_false_iff in N.
      rewrite (pollLoop_done url c' _ m N) in E. discriminate.
Qed.

Lemma catchResult_suspended r :
  completionOf (catchResult catchBlock r) = Suspended ->
  catchResult catchBlock r = r /\ completionOf r = Suspended.
Proof.
  destruct r as [[m t] c]. unfold catchResult, completionOf. cbn [snd].
  destruct c; try discriminate.
  now split.
Qed.

(** X4.  Whenever the handler is still waiting for a poll response, the
    prompt was valid, the creation response was a 201 with a truthy body of
    non-terminal status, every poll response received so far has been
    fetched for, the Go button is disabled and no error is shown. *)
Theorem X4_waiting_handler_keeps_button_disabled :
  forall create polls m,
    let r := handleButtonClick create polls m in
    completionOf r = Suspended ->
    validMessage (message m) = true /\
    accepted create = true /\
    length (statusUrls (traceOf r)) = length polls /\
    buttonDisabled (finalOf r) = true /\
    error (finalOf r) = None.
Proof.
  intros create polls m. cbv zeta. intros H.
  assert (Hv : validMessage (message m) = true).
  { unfold validMessage.
    destruct (String.eqb (message m) "") eqn:E.
    - apply String.eqb_eq in E.
      rewrite (handle_empty create polls m E) in H. discriminate.
    - destruct (Nat.leb_spec (String.length (message m)) 2000) as [L|L];
        [reflexivity|].
      rewrite (handle_too_long create polls m L) in H. discriminate. }
  rewrite (handle_valid create polls m Hv) in H |- *.
  rewrite completionOf_prepend in H.
  apply catchResult_suspended in H as [Ec H]. rewrite Ec.
  rewrite traceOf_prepend, finalOf_prepend, statusUrls_app.
  destruct (tryBody_cases (promptOf m) create polls (submitted m))
    as [(m1 & t & c & E & Hc & _)|(j & Ej & Tj & E)];
    rewrite E in H |- *.
  - simpl in H. congruence.
  - rewrite completionOf_prepend in H.
    destruct (pollLoop_suspended polls _ _ _ H) as (Hn & Hs & Ho & He).
    rewrite traceOf_prepend, finalOf_prepend, statusUrls_app, Hs.
    unfold buttonDisabled. rewrite Ho, He.
    split; [exact Hv|]. split.
    + subst create. simpl. now rewrite Tj, Hn.
    + simpl. rewrite repeat_length. now repeat split.
Qed.

Lemma X4_waiting_witness :
  let m := handleInputChange "tiger" initialMachine in
  let job s := JRecord (mkPrediction (Some []) (Some s) (Some "j1") None) in
  let r := handleButtonClick (Response 201 (BodyJson (job "starting")))
             [mkPoll 2 1 (Response 200 (BodyJson (job "processing")))] m in
  completionOf r = Suspended /\
  buttonDisabled (finalOf r) = true /\
  error (finalOf r) = None.
Proof.
  cbv zeta.
  assert (S : completionOf
    (handleButtonClick
       (Response 201 (BodyJson (JRecord
          (mkPrediction (Some []) (Some "starting") (Some "j1") None))))
       [mkPoll 2 1 (Response 200 (BodyJson (JRecord
          (mkPrediction (Some []) (Some "processing") (Some "j1") None))))]
       (handleInputChange "tiger" initialMachine)) = Suspended)
    by reflexivity.
  split; [exact S|].
  destruct (X4_waiting_handler_keeps_button_disabled _ _ _ S)
    as (_ & _ & _ & H4 & H5).
  split; [exact H4|exact H5].
Defined.

(** *** Polling has no upper bound *)

Lemma pollLoop_continuing pre : forall url cur m,
  nonterminal cur = true ->
  forallb continues pre = true ->
  completionOf (pollLoop url cur pre m) = Suspended /\
  prediction (finalOf (pollLoop url cur pre m)) =
    lastJob (prediction m) pre.
Proof.
  induction pre as [|p pre IH]; intros url cur m Hc Hp.
  - rewrite (pollLoop_empty url cur m Hc). now split.
  - simpl in Hp. apply andb_true_iff in Hp as [Hp Hpre].
    unfold continues in Hp. simpl lastJob.
    destruct (result p) as [|code [|j]] eqn:R; try discriminate.
    apply andb_true_iff in Hp as [Hcode Hj]. apply Nat.eqb_eq in Hcode.
    subst code.
    rewrite (pollLoop_wait url cur p pre m Hc), R.
    rewrite (onBody_continue url j pre _ Hj).
    rewrite !completionOf_prepend, !finalOf_prepend.
    apply (IH url j (withPrediction j (afterWait p m)) Hj Hpre).
Qed.

(** X3.  Polling has no upper bound: after an accepted submission, however
    many polls are answered with HTTP 200 and a non-terminal status, the
    handler has fetched the status once for each of them and is waiting to
    fetch again, with the in-flight flag still true, no error shown, and the
    store holding the body of the last response. *)
Theorem X3_polling_goes_on_while_status_is_not_terminal :
  forall j pre m,
    validMessage (message m) = true ->
    accepted (Response 201 (BodyJson j)) = true ->
    forallb continues pre = true ->
    let r := handleButtonClick (Response 201 (BodyJson j)) pre m in
    completionOf r = Suspended /\
    statusUrls (traceOf r) = repeat (predictionsIdUrl j) (length pre) /\
    prediction (finalOf r) = lastJob j pre /\
    predictionOn (finalOf r) = true /\
    error (finalOf r) = None.
Proof.
  intros j pre m Hv Ha Hp. cbv zeta.
  destruct (tryBody_accepted (promptOf m) _ pre (submitted m) Ha)
    as (j' & Ej & _ & Hj & E).
  injection Ej as <-.
  destruct (pollLoop_continuing pre (predictionsIdUrl j) j
              (started j (submitted m)) Hj Hp) as (Hs & Hl).
  destruct (pollLoop_suspended pre _ _ _ Hs) as (_ & Hu & Ho & He).
  rewrite (handle_valid _ pre m Hv), E.
  rewrite catchResult_prepend, prepend_prepend.
  rewrite catchResult_not_rejected by (rewrite Hs; reflexivity).
  rewrite completionOf_prepend, traceOf_prepend, finalOf_prepend.
  rewrite statusUrls_app, Hu, Hl, Ho, He.
  now repeat split.
Qed.

Lemma X3_polling_witness :
  let m := handleInputChange "tiger" initialMachine in
  let job out s := JRecord (mkPrediction (Some out) (Some s) (Some "j1") None) in
  let r := handleButtonClick (Response 201 (BodyJson (job [] "starting")))
             [mkPoll 2 1 (Response 200 (BodyJson (job [] "processing")));
              mkPoll 3 0 (Response 200 (BodyJson (job ["a.png"] "processing")))]
             m in
  completionOf r = Suspended /\
  statusUrls (traceOf r) =
    ["/api/predictionState/j1"; "/api/predictionState/j1"] /\
  prediction (finalOf r) = job ["a.png"] "processing".
Proof.
  cbv zeta.
  destruct (X3_polling_goes_on_while_status_is_not_terminal
              (JRecord (mkPrediction (Some []) (Some "starting") (Some "j1")
                                     None))
              [mkPoll 2 1 (Response 200 (BodyJson (JRecord
                 (mkPrediction (Some []) (Some "processing") (Some "j1")
                               None))));
               mkPoll 3 0 (Response 200 (BodyJson (JRecord
                 (mkPrediction (Some ["a.png"]) (Some "processing")
                               (Some "j1") None))))]
              (handleInputChange "tiger" initialMachine)
              eq_refl eq_refl eq_refl) as (H1 & H2 & H3 & _).
  split; [exact H1|]. split; [exact H2|exact H3].
Defined.

(** ** An interval nobody clears *)

Lemma ticks_unattended n : forall m,
  intervalActive m = true ->
  progressValue m = S (progress m) ->
  progress m <= 100 ->
  intervalActive (finalOf (ticks n m)) = Nat.leb (progress m + n) 100 /\
  progress (finalOf (ticks n m)) = Nat.min (progress m + n) 100 /\
  length (traceOf (ticks n m)) = Nat.min n (101 - progress m).
Proof.
  induction n as [|n IH]; intros m A V L.
  - change (finalOf (ticks 0 m)) with m.
    change (traceOf (ticks 0 m)) with (@nil Event).
    rewrite A, Nat.add_0_r. apply Nat.leb_le in L. rewrite L.
    apply Nat.leb_le in L. repeat split; simpl; lia.
  - destruct (Nat.le_gt_cases (progressValue m) 100) as [L1|L1].
    + rewrite (ticks_succ n m _ _ (tick_fire m A L1)).
      rewrite finalOf_prepend, traceOf_prepend, length_app.
      match goal with
      | |- context [ticks n ?x] =>
          destruct (IH x) as (I1 & I2 & I3);
            [reflexivity|reflexivity|simpl; lia|]
      end.
      cbn [progress] in I1, I2, I3. rewrite I1, I2, I3, V.
      replace (S (progress m) + n) with (progress m + S n) by lia.
      repeat split. simpl length. lia.
    + rewrite (ticks_succ n m _ _ (tick_expire m A L1)).
      rewrite finalOf_prepend, traceOf_prepend, length_app.
      rewrite ticks_inactive by reflexivity.
      unfold finalOf, traceOf. cbn [fst snd intervalActive progress length].
      assert (E : Nat.leb (progress m + S n) 100 = false)
        by (apply Nat.leb_gt; lia).
      rewrite E. repeat split; lia.
Qed.

(** X5.  An interval that nobody clears stops by itself: started by an
    accepted submission and left alone, after [n] firings of its callback
    progress is [min n 100], the interval is still armed exactly when
    [n <= 100] (firing 101 is the one that clears it), and later firings do
    nothing, so the callback runs at most 101 times.  It changes neither the
    in-flight flag, nor the stored Job, nor the error. *)
Theorem X5_unattended_interval_clears_itself :
  forall j m n,
    let r := ticks n (started j m) in
    progress (finalOf r) = Nat.min n 100 /\
    intervalActive (finalOf r) = Nat.leb n 100 /\
    length (traceOf r) = Nat.min n 101 /\
    predictionOn (finalOf r) = predictionOn m /\
    prediction (finalOf r) = j /\
    error (finalOf r) = error m.
Proof.
  intros j m n. cbv zeta.
  destruct (ticks_unattended n (started j m) eq_refl eq_refl)
    as (H1 & H2 & H3); [simpl; lia|].
  destruct (ticks_frame n (started j m)) as (_ & F2 & F3 & F4).
  simpl in H1, H2, H3.
  rewrite H1, H2, H3, F2, F3, F4.
  repeat split.
Qed.

(** ** Edge cases of the creation response *)

Lemma tryBody_created_falsy prompt j polls m :
  truthy j = false ->
  tryBody prompt (Response 201 (BodyJson j)) polls m =
  (withPredictionOn false (withPrediction JNull m),
   [FetchCreate prompt; SetPrediction JNull; SetPredictionOn false],
   Normal tt).
Proof.
  intros T. unfold tryBody. rewrite bind_emit.
  change (negb (ok 201)) with false. cbv iota. rewrite bind_ret.
  change (negb (Nat.eqb 201 201)) with false. cbv iota. rewrite T.
  reflexivity.
Qed.

(** X6.  A 201 creation response whose body is [null] or another falsy value
    takes the [else] branch: the stored Job is reset to [null], so whatever
    result was on the page is replaced by the sample gallery, the in-flight
    flag is cleared, no interval is started, no status fetch is issued and no
    error is shown. *)
Theorem X6_created_with_falsy_body_resets_the_store :
  forall j polls m,
    validMessage (message m) = true ->
    truthy j = false ->
    let r := handleButtonClick (Response 201 (BodyJson j)) polls m in
    traceOf r =
      [SetError None; SetPredictionOn true; FetchCreate (promptOf m);
       SetPrediction JNull; SetPredictionOn false] /\
    completionOf r = Normal tt /\
    prediction (finalOf r) = JNull /\
    showSampleGallery (finalOf r) = true /\
    buttonDisabled (finalOf r) = false /\
    error (finalOf r) = None /\
    intervalActive (finalOf r) = intervalActive m /\
    progress (finalOf r) = progress m.
Proof.
  intros j polls m Hv T. cbv zeta.
  rewrite (handle_valid _ polls m Hv).
  rewrite (tryBody_created_falsy _ j polls _ T).
  repeat split.
Qed.

Lemma X6_falsy_body_witness :
  let job := JRecord (mkPrediction (Some ["a.png"]) (Some "succeeded")
                                   (Some "j0") None) in
  let m := mkMachine "tiger" 100 false job None 0 false in
  let r := handleButtonClick (Response 201 (BodyJson JNull)) [] m in
  showSampleGallery m = false /\
  showSampleGallery (finalOf r) = true /\
  buttonDisabled (finalOf r) = false.
Proof.
  cbv zeta.
  destruct (X6_created_with_falsy_body_resets_the_store JNull []
              (mkMachine "tiger" 100 false
                 (JRecord (mkPrediction (Some ["a.png"]) (Some "succeeded")
                                        (Some "j0") None))
                 None 0 false) eq_refl eq_refl)
    as (_ & _ & _ & H4 & H5 & _).
  split; [reflexivity|]. split; [exact H4|exact H5].
Defined.

(** X11.  A 201 creation response whose status is already terminal
    ([succeeded] or [failed]): the loop body never runs, so no status fetch
    is issued and the handler finishes at once; but the in-flight flag it set
    is still true and the interval it started is still armed.  Later firings
    of the callback only move progress, up to 100: the Go button stays
    disabled. *)
Theorem X11_terminal_on_creation_never_polls_and_keeps_the_flag :
  forall c polls m,
    validMessage (message m) = true ->
    terminal (status c) = true ->
    let r := handleButtonClick (Response 201 (BodyJson (JRecord c))) polls m in
    traceOf r =
      [SetError None; SetPredictionOn true; FetchCreate (promptOf m);
       SetPrediction (JRecord c); SetProgress 0; SetInterval 750] /\
    completionOf r = Normal tt /\
    prediction (finalOf r) = JRecord c /\
    intervalActive (finalOf r) = true /\
    (forall n,
       buttonDisabled (finalOf (ticks n (finalOf r))) = true /\
       progress (finalOf (ticks n (finalOf r))) = Nat.min n 100).
Proof.
  intros c polls m Hv T. cbv zeta.
  rewrite (handle_valid _ polls m Hv).
  rewrite (tryBody_created _ (JRecord c) polls _ eq_refl).
  rewrite (pollLoop_done _ c polls _ T).
  repeat split.
  - destruct (ticks_frame n (started (JRecord c) (submitted m)))
      as (_ & F & _).
    exact F.
  - destruct (ticks_unattended n (started (JRecord c) (submitted m))
                eq_refl eq_refl) as (_ & H & _); [simpl; lia|].
    exact H.
Qed.

Lemma X11_terminal_on_creation_witness :
  let m := handleInputChange "tiger" initialMachine in
  let job := mkPrediction (Some ["a.png"]) (Some "succeeded") (Some "j1")
                          None in
  let r := handleButtonClick (Response 201 (BodyJson (JRecord job)))
             [mkPoll 2 1 (Response 200 (BodyJson (JRecord job)))] m in
  statusUrls (traceOf r) = [] /\
  completionOf r = Normal tt /\
  buttonDisabled (finalOf (ticks 200 (finalOf r))) = true /\
  progress (finalOf (ticks 200 (finalOf r))) = 100.
Proof.
  cbv zeta.
  destruct (X11_terminal_on_creation_never_polls_and_keeps_the_flag
              (mkPrediction (Some ["a.png"]) (Some "succeeded") (Some "j1")
                            None)
              [mkPoll 2 1 (Response 200 (BodyJson (JRecord
                 (mkPrediction (Some ["a.png"]) (Some "succeeded")
                               (Some "j1") None))))]
              (handleInputChange "tiger" initialMachine) eq_refl eq_refl)
    as (H1 & H2 & _ & _ & H5).
  destruct (H5 200) as (H6 & H7).
  split; [rewrite H1; reflexivity|].
  split; [exact H2|]. split; [exact H6|exact H7].
Defined.


(** ** Polls that end the loop without success *)

(** A run of continuing polls, with the store and the fetches it leaves. *)
Lemma pollLoop_prefix_store pre : forall url cur rest m,
  nonterminal cur = true ->
  forallb continues pre = true ->
  exists m' t,
    pollLoop url cur (pre ++ rest) m =
      prepend t (pollLoop url (lastJob cur pre) rest m') /\
    nonterminal (lastJob cur pre) = true /\
    predictionOn m' = predictionOn m /\
    error m' = error m /\
    prediction m' = lastJob (prediction m) pre /\
    statusUrls t = repeat url (length pre).
Proof.
  induction pre as [|p pre IH]; intros url cur rest m Hc Hp.
  - exists m, []. rewrite prepend_nil. now repeat split.
  - simpl in Hp. apply andb_true_iff in Hp as [Hp Hpre].
    unfold continues in Hp.
    destruct (result p) as [|code [|j]] eqn:R; try discriminate.
    apply andb_true_iff in Hp as [Hcode Hj]. apply Nat.eqb_eq in Hcode.
    subst code.
    destruct (IH url j rest (withPrediction j (afterWait p m)) Hj Hpre)
      as (m' & t & E & Hn & Ho & He & Hl & Hs).
    assert (Hst : statusUrls (waitEvents url p m ++ SetPrediction j :: t) =
                  repeat url (length (p :: pre))).
    { rewrite statusUrls_app, waitEvents_statusUrls.
      change (SetPrediction j :: t) with ([SetPrediction j] ++ t).
      rewrite statusUrls_app, Hs. reflexivity. }
    exists m', (waitEvents url p m ++ SetPrediction j :: t).
    simpl app. rewrite (pollLoop_wait url cur p (pre ++ rest) m Hc), R.
    rewrite (onBody_continue url j (pre ++ rest) _ Hj), E.
    rewrite !prepend_prepend, <- app_assoc. simpl lastJob. rewrite R.
    split; [reflexivity|]. split; [exact Hn|].
    split; [rewrite Ho; apply afterWait_predictionOn|].
    split; [rewrite He; apply afterWait_error|].
    split; [exact Hl|exact Hst].
Qed.

Lemma handle_polling_store j pre rest m :
  validMessage (message m) = true ->
  accepted (Response 201 (BodyJson j)) = true ->
  forallb continues pre = true ->
  exists m' t,
    handleButtonClick (Response 201 (BodyJson j)) (pre ++ rest) m =
      prepend t
        (catchResult catchBlock
           (pollLoop (predictionsIdUrl j) (lastJob j pre) rest m')) /\
    nonterminal (lastJob j pre) = true /\
    predictionOn m' = true /\
    error m' = None /\
    prediction m' = lastJob j pre /\
    statusUrls t = repeat (predictionsIdUrl j) (length pre).
Proof.
  intros Hv Ha Hp.
  destruct (tryBody_accepted (promptOf m) _ (pre ++ rest) (submitted m) Ha)
    as (j' & Ej & _ & Hj & E).
  injection Ej as <-.
  destruct (pollLoop_prefix_store pre (predictionsIdUrl j) j rest
              (started j (submitted m)) Hj Hp)
    as (m' & t & E' & Hn & Ho & He & Hl & Hs).
  exists m'.
  exists ([SetError None; SetPredictionOn true] ++
          [FetchCreate (promptOf m); SetPrediction j; SetProgress 0;
           SetInterval progressIntervalMs] ++ t).
  split.
  - rewrite (handle_valid _ (pre ++ rest) m Hv), E, E'.
    now rewrite prepend_prepend, !catchResult_prepend, !prepend_prepend.
  - repeat split; assumption.
Qed.

Lemma afterWait_store p m : prediction (afterWait p m) = prediction m.
Proof. apply afterWait_prediction. Qed.

(** X12.  A Job that ends [failed] is shown no error: when, after an
    accepted submission and any number of continuing polls, a poll answered
    with HTTP 200 reports status [failed], the handler stores that Job and
    finishes without writing any error, whatever [detail] the Job carries.
    The progress skeleton stays on the page, the Go button stays disabled,
    and the polls scripted after it are never fetched. *)
Theorem X12_failed_job_surfaces_no_error :
  forall j pre p c rest m,
    validMessage (message m) = true ->
    accepted (Response 201 (BodyJson j)) = true ->
    forallb continues pre = true ->
    result p = Response 200 (BodyJson (JRecord c)) ->
    status c = Some "failed" ->
    let r := handleButtonClick (Response 201 (BodyJson j))
                               (pre ++ p :: rest) m in
    completionOf r = Normal tt /\
    error (finalOf r) = None /\
    prediction (finalOf r) = JRecord c /\
    showProgressSkeleton (finalOf r) = true /\
    buttonDisabled (finalOf r) = true /\
    statusUrls (traceOf r) = repeat (predictionsIdUrl j) (S (length pre)).
Proof.
  intros j pre p c rest m Hv Ha Hp R Hf. cbv zeta.
  destruct (handle_polling_store j pre (p :: rest) m Hv Ha Hp)
    as (m' & t & E & Hn & Ho & He & _ & Hs).
  rewrite E, (pollLoop_wait _ _ p rest m' Hn), R.
  rewrite (onBody_failed _ c rest _ Hf).
  rewrite catchResult_prepend, prepend_prepend.
  rewrite completionOf_prepend, finalOf_prepend, traceOf_prepend.
  unfold catchResult, completionOf, finalOf, traceOf. cbn [fst snd].
  unfold showProgressSkeleton, buttonDisabled.
  cbn [prediction predictionOn error withPrediction truthy statusOf].
  rewrite afterWait_error, afterWait_predictionOn, He, Ho, Hf.
  rewrite !statusUrls_app, Hs, waitEvents_statusUrls.
  repeat split.
  change (statusUrls [SetPrediction (JRecord c)]) with (@nil string).
  rewrite app_nil_r, <- repeat_cons. reflexivity.
Qed.

Lemma X12_failed_job_witness :
  let m := handleInputChange "tiger" initialMachine in
  let job s d := JRecord (mkPrediction (Some []) (Some s) (Some "j1") d) in
  let r := handleButtonClick (Response 201 (BodyJson (job "starting" None)))
             ([mkPoll 2 1 (Response 200 (BodyJson (job "processing" None)))] ++
              mkPoll 3 0 (Response 200
                            (BodyJson (job "failed" (Some "NSFW content"))))
              :: []) m in
  error (finalOf r) = None /\
  showProgressSkeleton (finalOf r) = true /\
  buttonDisabled (finalOf r) = true.
Proof.
  cbv zeta.
  destruct (X12_failed_job_surfaces_no_error
              (JRecord (mkPrediction (Some []) (Some "starting") (Some "j1")
                                     None))
              [mkPoll 2 1 (Response 200 (BodyJson (JRecord
                 (mkPrediction (Some []) (Some "processing") (Some "j1")
                               None))))]
              (mkPoll 3 0 (Response 200 (BodyJson (JRecord
                 (mkPrediction (Some []) (Some "failed") (Some "j1")
                               (Some "NSFW content"))))))
              (mkPrediction (Some []) (Some "failed") (Some "j1")
                            (Some "NSFW content"))
              []
              (handleInputChange "tiger" initialMachine)
              eq_refl eq_refl eq_refl eq_refl eq_refl)
    as (_ & H2 & _ & H4 & H5 & _).
  split; [exact H2|]. split; [exact H4|exact H5].
Defined.

(** X13.  A poll answered with a status other than 200 aborts the polling:
    after an accepted submission and any number of continuing polls, such a
    response (with a non-null body) makes the handler return with the body's
    [detail] as the error; the body is not published, so the store keeps the
    last Job fetched before it; the polls scripted after it are never
    fetched; and the Go button is left disabled. *)
Theorem X13_non200_poll_aborts_and_keeps_the_last_job :
  forall j pre p code j' rest m,
    validMessage (message m) = true ->
    accepted (Response 201 (BodyJson j)) = true ->
    forallb continues pre = true ->
    result p = Response code (BodyJson j') ->
    code <> 200 -> j' <> JNull ->
    let r := handleButtonClick (Response 201 (BodyJson j))
                               (pre ++ p :: rest) m in
    completionOf r = Returned /\
    error (finalOf r) = detailOf j' /\
    prediction (finalOf r) = lastJob j pre /\
    buttonDisabled (finalOf r) = true /\
    statusUrls (traceOf r) = repeat (predictionsIdUrl j) (S (length pre)).
Proof.
  intros j pre p code j' rest m Hv Ha Hp R Hc Hj. cbv zeta.
  destruct (handle_polling_store j pre (p :: rest) m Hv Ha Hp)
    as (m' & t & E & Hn & Ho & _ & Hl & Hs).
  rewrite E, (pollLoop_wait _ _ p rest m' Hn), R.
  rewrite (onBody_non200 _ code j' rest _ Hc Hj).
  rewrite catchResult_prepend, prepend_prepend.
  rewrite completionOf_prepend, finalOf_prepend, traceOf_prepend.
  unfold catchResult, completionOf, finalOf, traceOf. cbn [fst snd].
  unfold buttonDisabled.
  cbn [prediction predictionOn error withError].
  rewrite afterWait_store, afterWait_predictionOn, Hl, Ho.
  rewrite !statusUrls_app, Hs, waitEvents_statusUrls.
  repeat split.
  change (statusUrls [SetError (detailOf j')]) with (@nil string).
  rewrite app_nil_r, <- repeat_cons. reflexivity.
Qed.

Lemma X13_non200_poll_witness :
  let m := handleInputChange "tiger" initialMachine in
  let job out s := JRecord (mkPrediction (Some out) (Some s) (Some "j1") None) in
  let r := handleButtonClick (Response 201 (BodyJson (job [] "starting")))
             ([mkPoll 2 1
                 (Response 200 (BodyJson (job ["a.png"] "processing")))] ++
              mkPoll 3 0 (Response 502 (BodyJson (JRecord
                 (mkPrediction None None None (Some "bad gateway")))))
              :: [mkPoll 3 0
                    (Response 200 (BodyJson (job ["a.png"] "succeeded")))]) m in
  completionOf r = Returned /\
  error (finalOf r) = Some "bad gateway" /\
  prediction (finalOf r) = job ["a.png"] "processing" /\
  buttonDisabled (finalOf r) = true.
Proof.
  cbv zeta.
  assert (N1 : 502 <> 200) by discriminate.
  assert (N2 : JRecord (mkPrediction None None None (Some "bad gateway"))
               <> JNull) by discriminate.
  destruct (X13_non200_poll_aborts_and_keeps_the_last_job
              (JRecord (mkPrediction (Some []) (Some "starting") (Some "j1")
                                     None))
              [mkPoll 2 1 (Response 200 (BodyJson (JRecord
                 (mkPrediction (Some ["a.png"]) (Some "processing")
                               (Some "j1") None))))]
              (mkPoll 3 0 (Response 502 (BodyJson (JRecord
                 (mkPrediction None None None (Some "bad gateway"))))))
              502
              (JRecord (mkPrediction None None None (Some "bad gateway")))
              [mkPoll 3 0 (Response 200 (BodyJson (JRecord
                 (mkPrediction (Some ["a.png"]) (Some "succeeded")
                               (Some "j1") None))))]
              (handleInputChange "tiger" initialMachine)
              eq_refl eq_refl eq_refl eq_refl N1 N2)
    as (H1 & H2 & H3 & H4 & _).
  repeat split; assumption.
Defined.

Lemma onBody_null url code rest m :
  onBody url code JNull rest m =
  if Nat.eqb code 200
  then (withPrediction JNull m, [SetPrediction JNull],
        Thrown (NullDeref "status"))
  else (m, [], Thrown (NullDeref "detail")).
Proof.
  unfold onBody. destruct (Nat.eqb code 200); reflexivity.
Qed.

(** X7.  A poll whose body is the JSON value [null] ends the handler through
    the [catch] clause: reading a property of [null] throws, the exception is
    logged, the in-flight flag is cleared and no error is shown.  With status
    200 the [null] has already been stored, so the page falls back to the
    sample gallery; with any other status the store keeps the last Job
    fetched. *)
Theorem X7_null_poll_body_is_caught :
  forall j pre p code rest m,
    validMessage (message m) = true ->
    accepted (Response 201 (BodyJson j)) = true ->
    forallb continues pre = true ->
    result p = Response code (BodyJson JNull) ->
    let r := handleButtonClick (Response 201 (BodyJson j))
                               (pre ++ p :: rest) m in
    completionOf r = Normal tt /\
    buttonDisabled (finalOf r) = false /\
    error (finalOf r) = None /\
    prediction (finalOf r) =
      (if Nat.eqb code 200 then JNull else lastJob j pre) /\
    (exists t,
       traceOf r =
       t ++ [SetPredictionOn false;
             ConsoleLog (NullDeref (if Nat.eqb code 200
                                    then "status" else "detail"))]).
Proof.
  intros j pre p code rest m Hv Ha Hp R. cbv zeta.
  destruct (handle_polling_store j pre (p :: rest) m Hv Ha Hp)
    as (m' & t & E & Hn & _ & He & Hl & _).
  rewrite E, (pollLoop_wait _ _ p rest m' Hn), R, onBody_null.
  rewrite catchResult_prepend, prepend_prepend.
  rewrite completionOf_prepend, finalOf_prepend, traceOf_prepend.
  destruct (Nat.eqb code 200);
    unfold catchResult, completionOf, finalOf, traceOf; cbn [fst snd];
    rewrite catchBlock_eq; unfold prepend, finalOf, traceOf, completionOf;
    cbn [fst snd prediction predictionOn error withPredictionOn
         withPrediction buttonDisabled];
    unfold buttonDisabled; cbn [predictionOn].
  - rewrite afterWait_error, He.
    repeat split.
    exists ((t ++ waitEvents (predictionsIdUrl j) p m') ++
            [SetPrediction JNull]).
    now rewrite <- !app_assoc.
  - rewrite afterWait_error, afterWait_store, He, Hl.
    repeat split.
    exists (t ++ waitEvents (predictionsIdUrl j) p m').
    now rewrite <- !app_assoc.
Qed.

Lemma X7_null_poll_body_witness :
  let m := handleInputChange "tiger" initialMachine in
  let job out s := JRecord (mkPrediction (Some out) (Some s) (Some "j1") None) in
  let r := handleButtonClick (Response 201 (BodyJson (job [] "starting")))
             ([mkPoll 2 1
                 (Response 200 (BodyJson (job ["a.png"] "processing")))] ++
              mkPoll 3 0 (Response 200 (BodyJson JNull)) :: []) m in
  completionOf r = Normal tt /\
  buttonDisabled (finalOf r) = false /\
  prediction (finalOf r) = JNull /\
  showSampleGallery (finalOf r) = true.
Proof.
  cbv zeta.
  destruct (X7_null_poll_body_is_caught
              (JRecord (mkPrediction (Some []) (Some "starting") (Some "j1")
                                     None))
              [mkPoll 2 1 (Response 200 (BodyJson (JRecord
                 (mkPrediction (Some ["a.png"]) (Some "processing")
                               (Some "j1") None))))]
              (mkPoll 3 0 (Response 200 (BodyJson JNull)))
              200 []
              (handleInputChange "tiger" initialMachine)
              eq_refl eq_refl eq_refl eq_refl)
    as (H1 & H2 & _ & H4 & _).
  split; [exact H1|]. split; [exact H2|]. split; [exact H4|].
  unfold showSampleGallery. rewrite H4. reflexivity.
Defined.

(** ** The order of the gallery (lines 325-334) *)

Lemma gallerySrc_rev out k :
  gallerySrc out (Z.of_nat (S k)) = nth_error (rev out) k.
Proof.
  unfold gallerySrc, jsIndex. rewrite nth_error_rev.
  destruct (Z.ltb_spec (Z.of_nat (length out) - Z.of_nat (S k)) 0) as [L|L];
    destruct (Nat.ltb_spec k (length out)) as [L'|L']; try lia.
  - reflexivity.
  - f_equal. lia.
Qed.

(** X8.  The gallery shows the output list from its end: the four image
    sources are the last four entries, most recent first; when the list has
    fewer than four entries they are all of them, most recent first, followed
    by undefined sources. *)
Theorem X8_gallery_shows_last_four_most_recent_first :
  forall out s i d,
    galleryRefs (JRecord (mkPrediction (Some out) s i d)) =
    Some (firstn 4 (map Some (rev out) ++ repeat None 4)).
Proof.
  intros out s i d. unfold galleryRefs. cbn [output].
  change 1%Z with (Z.of_nat 1). change 2%Z with (Z.of_nat 2).
  change 3%Z with (Z.of_nat 3). change 4%Z with (Z.of_nat 4).
  rewrite !gallerySrc_rev.
  destruct (rev out) as [|a [|b [|c [|e l]]]]; reflexivity.
Qed.

(** ** Downloads (lines 181-197) *)

Lemma string_length_app (a b : string) :
  String.length (a ++ b) = String.length a + String.length b.
Proof. induction a as [|x a IH]; simpl; [reflexivity|now rewrite IH]. Qed.

Lemma prefix_app p : forall o s,
  String.prefix p o = true -> String.prefix p (o ++ s) = true.
Proof.
  induction p as [|a p IH]; intros o s H.
  - destruct (o ++ s)%string; reflexivity.
  - destruct o as [|b o]; [simpl in H; discriminate|].
    simpl in *. destruct (ascii_dec a b); [now apply IH|discriminate].
Qed.

Lemma prefix_http_app origin src :
  String.prefix "http" origin = true ->
  String.prefix "http" (origin ++ src) = true.
Proof. apply prefix_app. Qed.

(** X9.  On a page whose origin starts with ["http"], the address
    [downloadImage] fetches always starts with ["http"]: a source that
    already does is used unchanged, any other source gets the origin put in
    front of it, and it is left unchanged only in the first case.  Resolving
    an address twice is the same as resolving it once. *)
Theorem X9_download_address_is_absolute :
  forall origin src,
    String.prefix "http" origin = true ->
    String.prefix "http" (resolveSrc origin src) = true /\
    resolveSrc origin (resolveSrc origin src) = resolveSrc origin src /\
    (String.prefix "http" src = false ->
       resolveSrc origin src = (origin ++ src)%string) /\
    (resolveSrc origin src = src <-> String.prefix "http" src = true).
Proof.
  intros origin src Ho.
  assert (P : String.prefix "http" (resolveSrc origin src) = true).
  { unfold resolveSrc. destruct (String.prefix "http" src) eqn:S;
      [exact S|now apply prefix_http_app]. }
  split; [exact P|]. split; [|split].
  - unfold resolveSrc at 1. now rewrite P.
  - intros S. unfold resolveSrc. now rewrite S.
  - unfold resolveSrc. destruct (String.prefix "http" src) eqn:S.
    + now split.
    + split; [|discriminate]. intros E.
      assert (L : String.length (origin ++ src) = String.length src)
        by now rewrite E.
      rewrite string_length_app in L.
      destruct origin; [discriminate|]. simpl in L. lia.
Qed.

Lemma X9_download_address_witness :
  resolveSrc "https://tattoo.example" "/images/dog.webp" =
    "https://tattoo.example/images/dog.webp" /\
  resolveSrc "https://tattoo.example" "https://cdn.example/out-0.png" =
    "https://cdn.example/out-0.png".
Proof.
  destruct (X9_download_address_is_absolute "https://tattoo.example"
              "/images/dog.webp" eq_refl) as (_ & _ & H3 & _).
  destruct (X9_download_address_is_absolute "https://tattoo.example"
              "https://cdn.example/out-0.png" eq_refl) as (_ & _ & _ & H4).
  split.
  - exact (H3 eq_refl).
  - apply H4. reflexivity.
Defined.

Lemma removeChild_appendChild n body :
  ~ In n body -> removeChild n (appendChild n body) = body.
Proof.
  intros H. unfold removeChild, appendChild.
  rewrite remove_app, (notin_remove Nat.eq_dec body n H).
  simpl. destruct (Nat.eq_dec n n) as [_|N]; [|congruence].
  apply app_nil_r.
Qed.

(** X10.  [downloadImage] fetches the resolved address first.  It catches
    nothing: when the fetch or the reading of the blob throws, its promise is
    rejected and the document has not been touched.  Otherwise it clicks,
    exactly once, a new anchor whose [href] is the object URL of the blob and
    whose [download] attribute is the empty string, and takes the anchor out
    of the document again: the children of [document.body] are as before. *)
Theorem X10_download_clicks_one_anchor_and_cleans_up :
  forall origin src fx objectUrl fresh body,
    ~ In fresh body ->
    let r := downloadImage origin src fx objectUrl fresh body in
    fst (fst r) = body /\
    match fx with
    | DownloadResponse (BlobOk blob) =>
        snd r = Saved /\
        snd (fst r) =
          [DomFetch (resolveSrc origin src); DomCreateObjectURL blob;
           DomAppend (mkAnchor fresh objectUrl (Some ""));
           DomClick (mkAnchor fresh objectUrl (Some ""));
           DomRemove (mkAnchor fresh objectUrl (Some ""))]
    | _ =>
        snd r = Rejected /\
        snd (fst r) = [DomFetch (resolveSrc origin src)]
    end.
Proof.
  intros origin src fx objectUrl fresh body H. cbv zeta.
  destruct fx as [|[|blob]]; simpl; repeat split.
  now apply removeChild_appendChild.
Qed.

Lemma X10_download_witness :
  let r := downloadImage "https://tattoo.example" "/images/dog.webp"
             (DownloadResponse (BlobOk 7)) "blob:https://tattoo.example/1"
             5 [1; 2; 3] in
  fst (fst r) = [1; 2; 3] /\
  snd r = Saved /\
  snd (fst r) =
    [DomFetch "https://tattoo.example/images/dog.webp";
     DomCreateObjectURL 7;
     DomAppend (mkAnchor 5 "blob:https://tattoo.example/1" (Some ""));
     DomClick (mkAnchor 5 "blob:https://tattoo.example/1" (Some ""));
     DomRemove (mkAnchor 5 "blob:https://tattoo.example/1" (Some ""))].
Proof.
  cbv zeta.
  assert (F : ~ In 5 [1; 2; 3]).
  { intros H. repeat (destruct H as [H|H]; [discriminate|]). exact H. }
  destruct (X10_download_clicks_one_anchor_and_cleans_up
              "https://tattoo.example" "/images/dog.webp"
              (DownloadResponse (BlobOk 7)) "blob:https://tattoo.example/1"
              5 [1; 2; 3] F) as (H1 & H2 & H3).
  split; [exact H1|]. split; [exact H2|exact H3].
Defined.

(** ** When the interval is cleared *)

Lemma in_handlerEvents e t :
  isTimerEvent e = false -> In e t -> In e (handlerEvents t).
Proof.
  intros H I. unfold handlerEvents. apply filter_In.
  split; [exact I|now rewrite H].
Qed.

Lemma waitEvents_no_clear url p m : ~ In ClearInterval (waitEvents url p m).
Proof.
  intros H. apply (in_handlerEvents ClearInterval _ eq_refl) in H.
  rewrite waitEvents_handlerEvents in H.
  repeat (destruct H as [H|H]; [discriminate|]). exact H.
Qed.

(** The loop body clears the interval in the [succeeded] branch only. *)
Lemma onBody_clear_split url code j rest m :
  (exists m1 t c,
     onBody url code j rest m = (m1, t, c) /\ ~ In ClearInterval t) \/
  (exists c,
     j = JRecord c /\ status c = Some "succeeded" /\
     onBody url code j rest m =
     (mkMachine (message m) 100 false (JRecord c) (error m)
                (progressValue m) false,
      [SetPrediction (JRecord c); ClearInterval; SetProgress 100;
       SetPredictionOn false],
      Normal tt)) \/
  onBody url code j rest m =
    prepend [SetPrediction j] (pollLoop url j rest (withPrediction j m)).
Proof.
  destruct (Nat.eqb code 200) eqn:C.
  - apply Nat.eqb_eq in C. subst code.
    destruct j as [| |c].
    + left. exists (withPrediction JNull m), [SetPrediction JNull],
                   (Thrown (NullDeref "status")).
      split; [reflexivity|not_in_trace].
    + right. right. now apply onBody_continue.
    + destruct (isStatus "succeeded" (status c)) eqn:S.
      * right. left. exists c. apply isStatus_true in S.
        split; [reflexivity|]. split; [exact S|].
        now apply onBody_succeeded.
      * right. right. now apply onBody_not_succeeded.
  - left. unfold onBody. rewrite C. cbn [negb].
    destruct j as [| |c].
    + exists m, [], (Thrown (NullDeref "detail")).
      split; [reflexivity|not_in_trace].
    + exists (withError None m), [SetError None], Returned.
      split; [reflexivity|not_in_trace].
    + exists (withError (detail c) m), [SetError (detail c)], Returned.
      split; [reflexivity|not_in_trace].
Qed.

Lemma pollLoop_clear polls : forall url cur m,
  In ClearInterval (traceOf (pollLoop url cur polls m)) ->
  clearedOnSuccess (pollLoop url cur polls m).
Proof.
  induction polls as [|p rest IH]; intros url cur m H.
  - destruct (pollLoop_stops url cur [] m (or_intror eq_refl)) as (c & E).
    rewrite E in H. destruct H.
  - destruct (nonterminal cur) eqn:N.
    + rewrite (pollLoop_wait url cur p rest m N) in H |- *.
      rewrite traceOf_prepend in H. apply in_app_or in H.
      destruct H as [H|H]; [now apply waitEvents_no_clear in H|].
      destruct (result p) as [|code [|j]]; try (destruct H).
      destruct (onBody_clear_split url code j rest (afterWait p m))
        as [(m1 & t & c & E & Hn)|[(c & Ej & Es & E)|E]];
        rewrite E in H |- *.
      * now apply Hn in H.
      * subst j. unfold clearedOnSuccess.
        rewrite completionOf_prepend, finalOf_prepend.
        unfold completionOf, finalOf.
        cbn [fst snd prediction progress predictionOn intervalActive statusOf].
        rewrite Es. now repeat split.
      * rewrite traceOf_prepend in H. apply in_app_or in H.
        destruct H as [H|H];
          [repeat (destruct H as [H|H]; [discriminate|]); destruct H|].
        apply (IH url j (withPrediction j (afterWait p m))) in H.
        exact H.
    + destruct (pollLoop_stops url cur (p :: rest) m (or_introl N)) as (c & E).
      rewrite E in H. destruct H.
Qed.

Lemma catchResult_clear r :
  In ClearInterval (traceOf (catchResult catchBlock r)) ->
  In ClearInterval (traceOf r).
Proof.
  destruct r as [[m t] c]. unfold catchResult, completionOf. cbn [snd].
  destruct c; try (intros H; exact H).
  rewrite catchBlock_eq, traceOf_prepend. unfold traceOf. cbn [fst snd].
  intros H. apply in_app_or in H. destruct H as [H|H]; [exact H|].
  repeat (destruct H as [H|H]; [discriminate|]). destruct H.
Qed.

(** X14.  The handler clears the interval on one path only.  Whenever a run
    of [handleButtonClick] has called [clearInterval], it has finished
    normally, the stored Job has status [succeeded], progress is 100, the
    in-flight flag is false and the interval is off.  So every other way out
    of the handler (a [failed] Job, a non-200 poll, a caught exception, an
    already terminal creation response) leaves the interval to run out by
    itself. *)
Theorem X14_interval_is_cleared_only_on_success :
  forall create polls m,
    let r := handleButtonClick create polls m in
    In ClearInterval (traceOf r) ->
    completionOf r = Normal tt /\
    isStatus "succeeded" (statusOf (prediction (finalOf r))) = true /\
    progress (finalOf r) = 100 /\
    predictionOn (finalOf r) = false /\
    intervalActive (finalOf r) = false.
Proof.
  intros create polls m. cbv zeta. intros H.
  assert (Hv : validMessage (message m) = true).
  { unfold validMessage.
    destruct (String.eqb (message m) "") eqn:E.
    - apply String.eqb_eq in E.
      rewrite (handle_empty create polls m E) in H.
      revert H. not_in_trace.
    - destruct (Nat.leb_spec (String.length (message m)) 2000) as [L|L];
        [reflexivity|].
      rewrite (handle_too_long create polls m L) in H.
      revert H. not_in_trace. }
  rewrite (handle_valid create polls m Hv) in H |- *.
  rewrite traceOf_prepend in H. apply in_app_or in H.
  destruct H as [H|H]; [revert H; not_in_trace|].
  destruct (tryBody_cases (promptOf m) create polls (submitted m))
    as [(m1 & t & c & E & _ & _ & _ & Hn)|(j & Ej & Tj & E)];
    rewrite E in H |- *.
  - apply catchResult_clear in H. unfold traceOf in H. cbn [fst snd] in H.
    destruct H as [H|H]; [discriminate|]. now apply Hn in H.
  - rewrite catchResult_prepend in H |- *. rewrite traceOf_prepend in H.
    apply in_app_or in H.
    destruct H as [H|H]; [revert H; not_in_trace|].
    apply catchResult_clear, pollLoop_clear in H.
    assert (R : rejected (completionOf
                  (pollLoop (predictionsIdUrl j) j polls
                            (started j (submitted m)))) = false)
      by (destruct H as (Hc & _); rewrite Hc; reflexivity).
    rewrite (catchResult_not_rejected _ _ R).
    exact H.
Qed.

Lemma X14_interval_cleared_witness :
  let m := handleInputChange "tiger" initialMachine in
  let job s := JRecord (mkPrediction (Some []) (Some s) (Some "j1") None) in
  let r := handleButtonClick (Response 201 (BodyJson (job "starting")))
             [mkPoll 2 1 (Response 200 (BodyJson (job "succeeded")))] m in
  In ClearInterval (traceOf r) /\
  progress (finalOf r) = 100 /\
  intervalActive (finalOf r) = false.
Proof.
  cbv zeta.
  assert (I : In ClearInterval
    (traceOf
       (handleButtonClick
          (Response 201 (BodyJson (JRecord
             (mkPrediction (Some []) (Some "starting") (Some "j1") None))))
          [mkPoll 2 1 (Response 200 (BodyJson (JRecord
             (mkPrediction (Some []) (Some "succeeded") (Some "j1") None))))]
          (handleInputChange "tiger" initialMachine)))).
  { vm_compute. repeat (first [left; reflexivity | right]). }
  split; [exact I|].
  destruct (X14_interval_is_cleared_only_on_success _ _ _ I)
    as (_ & _ & H3 & _ & H5).
  split; [exact H3|exact H5].
Defined.

(** ** Progress when an earlier interval is still armed *)

(** Two armed intervals write by turns, each from its own counter. *)
Lemma earlier_then_own_writes pg v ts :
  leftover pg = v :: ts ->
  v <= 100 ->
  intervalActive (current pg) = true ->
  progressValue (current pg) <= 100 ->
  progressHistory [Earlier 0; Own] pg = [v; progressValue (current pg)].
Proof.
  intros L Hv A Hc. destruct pg as [m ts0]. simpl in L, A, Hc. subst ts0.
  apply Nat.leb_le in Hv.
  cbn [progressHistory fire leftover current fireNth]. rewrite Hv.
  cbn [current leftover finalOf fst setProgress progress].
  unfold tick. cbn [intervalActive progressValue]. rewrite A.
  apply Nat.leb_le in Hc. rewrite Hc. reflexivity.
Qed.

(** C7.  Two clicks on one page.  The first submission is accepted and its
    first poll fails in transport after three firings of its interval: the
    [catch] clause re-enables the Go button but leaves that interval armed,
    with its counter at 4.  The second submission is accepted: progress is
    reset to 0, a second interval is armed, and the handler is in flight,
    waiting in its first [sleep].  The two intervals then fire by turns, each
    from its own counter, and progress reads 4, 1, 5, 2 (or 1, 4, 2, 5 when
    the new interval fires first): it goes down while the job is in flight,
    and moves by other amounts than 1. *)
Theorem C7_leftover_interval_makes_progress_go_down :
  let m := handleInputChange "tiger" initialMachine in
  let job s := JRecord (mkPrediction (Some []) (Some s) (Some "j1") None) in
  let first := handleButtonClick (Response 201 (BodyJson (job "starting")))
                 [mkPoll 2 1 FetchThrows] m in
  let pg := nextClick (finalOf first) in
  let second := handleButtonClick (Response 201 (BodyJson (job "starting")))
                  [] (current pg) in
  let inflight := mkPage (finalOf second) (leftover pg) in
  completionOf first = Normal tt /\
  buttonDisabled (finalOf first) = false /\
  ~ In ClearInterval (traceOf first) /\
  leftover pg = [4] /\
  completionOf second = Suspended /\
  predictionOn (finalOf second) = true /\
  progress (finalOf second) = 0 /\
  progressHistory [Earlier 0; Own; Earlier 0; Own] inflight = [4; 1; 5; 2] /\
  progressHistory [Own; Earlier 0; Own; Earlier 0] inflight = [1; 4; 2; 5] /\
  ~ StronglySorted le (0 :: [4; 1; 5; 2]) /\
  ~ StronglySorted le (0 :: [1; 4; 2; 5]).
Proof.
  cbv zeta. repeat split; try reflexivity.
  - vm_compute. not_in_trace.
  - intros H. inversion H as [|a l H1 H2]; subst.
    inversion H1 as [|a' l' H3 H4]; subst.
    inversion H4 as [|x xs Hx _]; subst. lia.
  - intros H. inversion H as [|a l H1 H2]; subst.
    inversion H1 as [|a' l' H3 H4]; subst.
    inversion H3 as [|a'' l'' H5 H6]; subst.
    inversion H6 as [|x xs Hx _]; subst. lia.
Qed.

(** ** Progress of one submission on a page with no armed interval *)

Lemma last_app_default {A} (l1 l2 : list A) : forall d,
  last (l1 ++ l2) d = last l2 (last l1 d).
Proof.
  induction l1 as [|a l1 IH]; intros d; [reflexivity|].
  change ((a :: l1) ++ l2) with (a :: (l1 ++ l2)).
  now rewrite !last_cons, IH.
Qed.

Lemma tracked_prepend m m1 t r :
  progress m1 = last (progressWrites t) (progress m) ->
  progressTracked m1 r -> progressTracked m (prepend t r).
Proof.
  unfold progressTracked. intros H1 H2.
  rewrite finalOf_prepend, traceOf_prepend, progressWrites_app.
  now rewrite last_app_default, <- H1.
Qed.

Lemma ticks_tracked n : forall m, progressTracked m (ticks n m).
Proof.
  induction n as [|n IH]; intros m; [reflexivity|].
  destruct (intervalActive m) eqn:A.
  - destruct (Nat.le_gt_cases (progressValue m) 100) as [L|L].
    + rewrite (ticks_succ n m _ _ (tick_fire m A L)).
      eapply tracked_prepend; [|apply IH]. reflexivity.
    + rewrite (ticks_succ n m _ _ (tick_expire m A L)).
      eapply tracked_prepend; [|apply IH]. reflexivity.
  - now rewrite (ticks_inactive (S n) m A).
Qed.

Lemma afterWait_tracked url p m :
  progress (afterWait p m) =
  last (progressWrites (waitEvents url p m)) (progress m).
Proof.
  unfold afterWait, waitEvents.
  change (Sleep pollDelayMs :: ?l) with ([Sleep pollDelayMs] ++ l).
  rewrite progressWrites_app, progressWrites_app.
  change (FetchStatus url :: ?l) with ([FetchStatus url] ++ l).
  rewrite progressWrites_app.
  change (progressWrites [Sleep pollDelayMs]) with (@nil nat).
  change (progressWrites [FetchStatus url]) with (@nil nat).
  cbn [app]. rewrite last_app_default.
  rewrite <- (ticks_tracked (ticksSleep p) m).
  apply (ticks_tracked (ticksFetch p)).
Qed.

(** The loop body either ends the loop, leaving progress as its last write
    says, or publishes the body and loops. *)
Lemma onBody_progress_split url code j rest m :
  (exists m1 t c,
     onBody url code j rest m = (m1, t, c) /\
     progress m1 = last (progressWrites t) (progress m)) \/
  onBody url code j rest m =
    prepend [SetPrediction j] (pollLoop url j rest (withPrediction j m)).
Proof.
  destruct (Nat.eqb code 200) eqn:C.
  - apply Nat.eqb_eq in C. subst code.
    destruct j as [| |c].
    + left. exists (withPrediction JNull m), [SetPrediction JNull],
                   (Thrown (NullDeref "status")).
      now split.
    + right. now apply onBody_continue.
    + destruct (isStatus "succeeded" (status c)) eqn:S.
      * left. apply isStatus_true in S.
        rewrite (onBody_succeeded url c rest m S).
        do 3 eexists. now split.
      * right. now apply onBody_not_succeeded.
  - left. unfold onBody. rewrite C. cbn [negb].
    destruct j as [| |c].
    + exists m, [], (Thrown (NullDeref "detail")). now split.
    + exists (withError None m), [SetError None], Returned. now split.
    + exists (withError (detail c) m), [SetError (detail c)], Returned.
      now split.
Qed.

Lemma pollLoop_tracked polls : forall url cur m,
  progressTracked m (pollLoop url cur polls m).
Proof.
  induction polls as [|p rest IH]; intros url cur m.
  - destruct (pollLoop_stops url cur [] m (or_intror eq_refl)) as (c & E).
    now rewrite E.
  - destruct (nonterminal cur) eqn:N.
    + rewrite (pollLoop_wait url cur p rest m N).
      apply (tracked_prepend m (afterWait p m));
        [apply afterWait_tracked|].
      destruct (result p) as [|code [|j]]; try reflexivity.
      destruct (onBody_progress_split url code j rest (afterWait p m))
        as [(m1 & t & c & E & Hp)|E]; rewrite E.
      * exact Hp.
      * apply (tracked_prepend _ (withPrediction j (afterWait p m)));
          [reflexivity|apply IH].
    + destruct (pollLoop_stops url cur (p :: rest) m (or_introl N)) as (c & E).
      now rewrite E.
Qed.

Lemma catchResult_tracked m r :
  progressTracked m r -> progressTracked m (catchResult catchBlock r).
Proof.
  destruct r as [[m1 t] c]. unfold catchResult, completionOf. cbn [snd].
  destruct c; try (intros H; exact H).
  unfold progressTracked. intros H.
  rewrite catchBlock_eq, finalOf_prepend, traceOf_prepend.
  unfold finalOf, traceOf in *. cbn [fst snd] in *.
  rewrite progressWrites_app. cbn [progressWrites flat_map progressWrite app].
  rewrite app_nil_r. exact H.
Qed.

Lemma handle_created_tracked j polls m :
  validMessage (message m) = true -> truthy j = true ->
  progressTracked m (handleButtonClick (Response 201 (BodyJson j)) polls m).
Proof.
  intros Hv Hj.
  rewrite (handle_valid _ polls m Hv), (tryBody_created _ j polls _ Hj).
  rewrite catchResult_prepend, prepend_prepend.
  apply (tracked_prepend m (started j (submitted m))); [reflexivity|].
  apply catchResult_tracked, pollLoop_tracked.
Qed.

Lemma last_in_bounded (l : list nat) d b :
  Forall (fun v => v <= b) l -> d <= b -> last l d <= b.
Proof.
  intros H. revert d. induction H as [|x l Hx _ IH]; intros d Hd;
    [exact Hd|].
  rewrite last_cons. now apply IH.
Qed.

(** The values written to progress by a created submission and by the
    firings that follow it. *)
Lemma handle_created_writes j polls m n :
  validMessage (message m) = true -> truthy j = true ->
  exists k b,
    k <= 100 /\
    progressWrites
      (traceOf (handleButtonClick (Response 201 (BodyJson j)) polls m)) ++
    progressWrites
      (traceOf (ticks n (finalOf
         (handleButtonClick (Response 201 (BodyJson j)) polls m)))) =
    0 :: seq 1 k ++ (if b : bool then [100] else []).
Proof.
  intros Hv Hj.
  rewrite (handle_valid _ polls m Hv), (tryBody_created _ j polls _ Hj).
  rewrite catchResult_prepend, prepend_prepend.
  set (r := catchResult catchBlock
              (pollLoop (predictionsIdUrl j) j polls
                        (started j (submitted m)))).
  assert (F : writesFrom 1 n r).
  { apply writesFrom_catch.
    apply (pollLoop_writes polls (predictionsIdUrl j) j
             (started j (submitted m)) n).
    simpl. lia. }
  destruct F as (k & b & W & B).
  rewrite traceOf_prepend, finalOf_prepend, progressWrites_app.
  change (progressWrites
            ([SetError None; SetPredictionOn true] ++
             [FetchCreate (promptOf m); SetPrediction j; SetProgress 0;
              SetInterval progressIntervalMs])) with [0].
  rewrite <- !(app_assoc [0]), W.
  exists k, b. split; [lia|reflexivity].
Qed.

(** X15.  On a page where no interval is armed when the click happens, a
    created submission (HTTP 201, truthy body) drives progress as follows,
    whatever the polls bring and however often its interval fires during and
    after the handler.  Right after acceptance progress is 0.  The values
    written to it from then on are 0, 1, 2, ..., k with k at most 100, one
    more per firing, possibly followed by the forced 100, so they never
    decrease.  At every moment the value of progress is the last value
    written, and it is at most 100. *)
Theorem X15_progress_of_one_submission :
  forall j polls m n,
    validMessage (message m) = true ->
    truthy j = true ->
    intervalActive m = false ->
    let r := handleButtonClick (Response 201 (BodyJson j)) polls m in
    let after := ticks n (finalOf r) in
    let W := progressWrites (traceOf r) ++ progressWrites (traceOf after) in
    progress (finalOf (handleButtonClick (Response 201 (BodyJson j)) [] m))
      = 0 /\
    (exists k b,
       k <= 100 /\ W = 0 :: seq 1 k ++ (if b : bool then [100] else [])) /\
    StronglySorted le W /\
    progress (finalOf after) = last W 0 /\
    progress (finalOf after) <= 100.
Proof.
  intros j polls m n Hv Hj _. cbv zeta.
  pose proof (handle_created_tracked j polls m Hv Hj) as T1.
  pose proof (ticks_tracked n
                (finalOf (handleButtonClick (Response 201 (BodyJson j))
                                            polls m))) as T2.
  destruct (handle_created_writes j polls m n Hv Hj) as (k & b & Hk & W).
  unfold progressTracked in T1, T2.
  assert (L : progress (finalOf (ticks n (finalOf
                (handleButtonClick (Response 201 (BodyJson j)) polls m)))) =
              last (0 :: seq 1 k ++ (if b : bool then [100] else [])) 0).
  { rewrite T2, T1, <- last_app_default, W. now rewrite !last_cons. }
  split; [|split; [|split; [|split]]].
  - rewrite (handle_valid _ [] m Hv), (tryBody_created _ j [] _ Hj).
    destruct (pollLoop_stops (predictionsIdUrl j) j []
                (started j (submitted m)) (or_intror eq_refl)) as (c & E).
    rewrite E. destruct c; reflexivity.
  - exists k, b. split; [exact Hk|exact W].
  - rewrite W. apply (run_sorted (S k) 0 b). lia.
  - rewrite W. exact L.
  - rewrite L. apply last_in_bounded; [|lia].
    apply (run_bounded (S k) 0 b). lia.
Qed.

Lemma X15_progress_witness :
  let m := handleInputChange "tiger" initialMachine in
  let job s := JRecord (mkPrediction (Some []) (Some s) (Some "j1") None) in
  let r := handleButtonClick (Response 201 (BodyJson (job "starting")))
             [mkPoll 60 50 (Response 200 (BodyJson (job "processing")))] m in
  let after := ticks 5 (finalOf r) in
  let W := progressWrites (traceOf r) ++ progressWrites (traceOf after) in
  W = 0 :: seq 1 100 /\
  StronglySorted le W /\
  progress (finalOf after) = 100.
Proof.
  cbv zeta.
  destruct (X15_progress_of_one_submission
              (JRecord (mkPrediction (Some []) (Some "starting")
                                     (Some "j1") None))
              [mkPoll 60 50 (Response 200 (BodyJson (JRecord
                 (mkPrediction (Some []) (Some "processing")
                               (Some "j1") None))))]
              (handleInputChange "tiger" initialMachine) 5
              eq_refl eq_refl eq_refl) as (_ & _ & H3 & H4 & _).
  split; [vm_compute; reflexivity|]. split; [exact H3|].
  rewrite H4. vm_compute. reflexivity.
Defined.
